(** * AlertHarvest MCP server: the tool adapter of [alertharvest_server.py]

    A shallow embedding of the seven tools of the server and of the Python
    and httpx operations they call, followed by the properties of the
    adapter: what is validated before a request is sent, what is sent, and
    how every outcome of the request becomes the returned string.

    Python strings are sequences of Unicode code points, and [str.strip]
    and [int] look at code points, so a string is a list of code points.
    The calls to [logger] write to stderr only, they neither change a
    result nor send a request, and are left out. *)

From Stdlib Require Import List ZArith NArith Bool Ascii String Lia.
Import ListNotations.

(** ** Python strings and the builtins the tools use *)

Module Py.

Local Open Scope N_scope.

Definition ustring := list N.

(** An ASCII literal of the source, as code points. *)
Definition lit (s : string) : ustring :=
  map N_of_ascii (list_ascii_of_string s).

Definition ustring_eqb (a b : ustring) : bool :=
  if list_eq_dec N.eq_dec a b then true else false.

(** The truth value of a string or a list: empty is false. *)
Definition truthy {A} (s : list A) : bool :=
  match s with [] => false | _ :: _ => true end.

(** [str.isspace] on one code point: the characters [str.strip()] removes. *)
Definition isspace (c : N) : bool :=
  ((0x09 <=? c) && (c <=? 0x0D)) || ((0x1C <=? c) && (c <=? 0x20))
  || (c =? 0x85) || (c =? 0xA0) || (c =? 0x1680)
  || ((0x2000 <=? c) && (c <=? 0x200A))
  || (c =? 0x2028) || (c =? 0x2029) || (c =? 0x202F) || (c =? 0x205F)
  || (c =? 0x3000).

Fixpoint lstrip_by (sp : N -> bool) (s : ustring) : ustring :=
  match s with
  | [] => []
  | c :: r => if sp c then lstrip_by sp r else s
  end.

Definition strip_by (sp : N -> bool) (s : ustring) : ustring :=
  rev (lstrip_by sp (rev (lstrip_by sp s))).

(** [s.strip()] *)
Definition strip (s : ustring) : ustring := strip_by isspace s.

(** [s.split(sep)] for a one-character separator: one piece more than
    there are separators, empty pieces kept. *)
Fixpoint split (sep : N) (s : ustring) : list ustring :=
  match s with
  | [] => [[]]
  | c :: r =>
      if c =? sep then [] :: split sep r
      else match split sep r with
           | piece :: pieces => (c :: piece) :: pieces
           | [] => [[c]]
           end
  end%N.

Definition comma : N := 0x2C.
Definition underscore : N := 0x5F.
Definition plus_sign : N := 0x2B.
Definition minus_sign : N := 0x2D.

(** The first code point of every run of ten decimal digits (category Nd)
    of the Unicode database of CPython 3.11 (Unicode 14.0); [0x30] is the
    ASCII run. *)
Definition decimal_blocks : list N :=
  [0x30; 0x660; 0x6F0; 0x7C0; 0x966; 0x9E6; 0xA66; 0xAE6; 0xB66; 0xBE6;
   0xC66; 0xCE6; 0xD66; 0xDE6; 0xE50; 0xED0; 0xF20; 0x1040; 0x1090;
   0x17E0; 0x1810; 0x1946; 0x19D0; 0x1A80; 0x1A90; 0x1B50; 0x1BB0;
   0x1C40; 0x1C50; 0xA620; 0xA8D0; 0xA900; 0xA9D0; 0xA9F0; 0xAA50;
   0xABF0; 0xFF10; 0x104A0; 0x10D30; 0x11066; 0x110F0; 0x11136; 0x111D0;
   0x112F0; 0x11450; 0x114D0; 0x11650; 0x116C0; 0x11730; 0x118E0;
   0x11950; 0x11C50; 0x11D50; 0x11DA0; 0x16A60; 0x16AC0; 0x16B50;
   0x1D7CE; 0x1D7D8; 0x1D7E2; 0x1D7EC; 0x1D7F6; 0x1E140; 0x1E2F0;
   0x1E950; 0x1FBF0]%N.

(** [Py_UNICODE_TODECIMAL]: the value of a decimal digit, if it is one. *)
Definition decimal_value (c : N) : option N :=
  match find (fun b => (b <=? c) && (c <? b + 10))%N decimal_blocks with
  | Some b => Some (c - b)%N
  | None => None
  end.

(** The whitespace [int] skips around a literal: the ASCII characters of
    C's [isspace], and the Unicode whitespace beyond ASCII. *)
Definition int_isspace (c : N) : bool :=
  if (c <? 0x80)%N
  then ((0x09 <=? c) && (c <=? 0x0D))%N || (c =? 0x20)%N
  else isspace c.

(** The digits of a literal, underscores removed: a digit first, and an
    underscore only between two digits. *)
Fixpoint scan_digits (after_digit : bool) (s : ustring) : option (list N) :=
  match s with
  | [] => if after_digit then Some [] else None
  | c :: r =>
      if (c =? underscore)%N
      then (if after_digit then scan_digits false r else None)
      else match decimal_value c with
           | Some d => option_map (cons d) (scan_digits true r)
           | None => None
           end
  end.

Definition digits_value (ds : list N) : N :=
  fold_left (fun acc d => 10 * acc + d)%N ds 0%N.

(** [sys.get_int_max_str_digits()], the interpreter's default. *)
Definition int_max_str_digits : nat := 4300%nat.

Definition unsigned_literal (s : ustring) : option N :=
  match scan_digits false s with
  | Some ds =>
      if Nat.ltb int_max_str_digits (List.length ds) then None
      else Some (digits_value ds)
  | None => None
  end.

(** [int(s)] in base ten; [None] is [ValueError]. *)
Definition int (s : ustring) : option Z :=
  match strip_by int_isspace s with
  | c :: r =>
      if (c =? minus_sign)%N
      then option_map (fun n => (- Z.of_N n)%Z) (unsigned_literal r)
      else if (c =? plus_sign)%N
      then option_map Z.of_N (unsigned_literal r)
      else option_map Z.of_N (unsigned_literal (c :: r))
  | [] => None
  end.

(** *** Rendering numbers, as an f-string does *)

Definition digit_char (d : N) : N := (0x30 + d)%N.

Fixpoint dec_digits (fuel : nat) (n : N) : ustring :=
  match fuel with
  | O => []
  | S fuel' =>
      if (n <? 10)%N then [digit_char n]
      else dec_digits fuel' (n / 10)%N ++ [digit_char (n mod 10)%N]
  end.

(** [str(n)] for [n >= 0]; a number has at most [log2 n + 1] digits. *)
Definition str_of_N (n : N) : ustring :=
  dec_digits (S (N.to_nat (N.log2 n))) n.

(** [str(z)] *)
Definition str_of_int (z : Z) : ustring :=
  match z with
  | Zneg p => minus_sign :: str_of_N (Npos p)
  | _ => str_of_N (Z.to_N z)
  end.

Fixpoint join (sep : ustring) (l : list ustring) : ustring :=
  match l with
  | [] => []
  | [x] => x
  | x :: r => x ++ sep ++ join sep r
  end.

(** [str(l)] for a list of ints: [[1, 2, 3]]. *)
Definition str_of_int_list (l : list Z) : ustring :=
  lit "[" ++ join (lit ", ") (map str_of_int l) ++ lit "]".

(** [len(l)] *)
Definition len {A} (l : list A) : Z := Z.of_nat (List.length l).

(** [n] printed with ["%0<w>d"]: padded with zeros to at least [w] digits. *)
Definition zero_padded (w : nat) (n : N) : ustring :=
  let s := str_of_N n in repeat (digit_char 0) (w - List.length s)%nat ++ s.

(** [needle in hay] *)
Fixpoint starts_with (p s : ustring) : bool :=
  match p, s with
  | [], _ => true
  | a :: p', b :: s' => (a =? b)%N && starts_with p' s'
  | _ :: _, [] => false
  end.

Fixpoint contains (needle hay : ustring) : bool :=
  starts_with needle hay ||
  match hay with
  | [] => false
  | _ :: hay' => contains needle hay'
  end.

End Py.

Import Py.

(** ** Requests, responses and exceptions *)

Inductive method := POST | PUT.

(** The values the tools put in a request body. *)
Inductive jvalue :=
| JStr (s : ustring)
| JIntList (l : list Z).

Record Request := {
  req_method : method;
  req_url : ustring;
  req_json : option (list (ustring * jvalue));   (* the [json=] argument *)
  req_timeout : Z
}.

(** A value under a key of the decoded response body, as far as a tool
    looks at it: it is compared with a [str] and printed by an f-string. *)
Inductive pyvalue :=
| PyStr (s : ustring)
| PyOther (printed : ustring).   (* None, a bool, a number, a list or a dict,
                                    with its [str()] *)

(** What [response.json()] returns: a dict, or a value of another type,
    of which only the type's name is seen (in the [AttributeError]). *)
Inductive jsonval :=
| JObject (items : list (ustring * pyvalue))
| JNonObject (type_name : ustring).

Record Response := {
  status_code : Z;
  status_error : ustring;          (* the message of the [HTTPStatusError]
                                      httpx builds for this response *)
  json_body : ustring + jsonval    (* [inl msg]: the body does not decode *)
}.

(** The exceptions of the request and of reading the response. ([int]
    raises [ValueError] only, which [Py.int] returns as [None].) *)
Inductive exn :=
| JSONDecodeError (msg : ustring)
| AttributeError (msg : ustring)
| HTTPStatusError (response : Response)    (* httpx.HTTPStatusError *)
| ConnectError (msg : ustring)             (* httpx.ConnectError *)
| TimeoutException (msg : ustring).        (* httpx.TimeoutException *)

(** [str(e)] *)
Definition str_of_exn (e : exn) : ustring :=
  match e with
  | JSONDecodeError m | AttributeError m
  | ConnectError m | TimeoutException m => m
  | HTTPStatusError r => status_error r
  end.

(** What happens to one request. *)
Inductive NetOutcome :=
| Responded (r : Response)
| ConnectFailed (msg : ustring)
| TimedOut (msg : ustring).

Record datetime := {
  year : N; month : N; day : N;
  hour : N; minute : N; second : N; microsecond : N
}.

(** What a call depends on outside its arguments: the configured URL, the
    backend, and the clock. *)
Record Env := {
  ALERTHARVEST_URL : ustring;
  backend : Request -> NetOutcome;
  utcnow : datetime                (* [datetime.now(timezone.utc)] *)
}.

(** ** The monad of a tool call: it reads the environment, records the
    requests it sends, and returns or raises. *)

Inductive result (A : Type) :=
| Ok (a : A)
| Raised (e : exn).
Arguments Ok {A} a.
Arguments Raised {A} e.

Definition M (A : Type) : Type := Env -> result A * list Request.

Definition ret {A} (a : A) : M A := fun _ => (Ok a, []).

Definition raise {A} (e : exn) : M A := fun _ => (Raised e, []).

Definition bind {A B} (m : M A) (k : A -> M B) : M B :=
  fun env =>
    match m env with
    | (Ok a, sent) => let (r, sent') := k a env in (r, sent ++ sent')
    | (Raised e, sent) => (Raised e, sent)
    end.

Notation "x <- m ;; k" := (bind m (fun x => k))
  (at level 61, m at next level, right associativity).
Notation "m ;;; k" := (bind m (fun _ => k))
  (at level 61, right associativity).

Definition ask : M Env := fun env => (Ok env, []).

(** An [except] clause: the handler, when the exception is of its class. *)
Definition clause (A : Type) : Type := exn -> option (M A).

Definition except_HTTPStatusError {A} (h : Response -> M A) : clause A :=
  fun e => match e with
           | HTTPStatusError r => Some (h r)
           | _ => None
           end.

(** Every exception above is an [Exception]. *)
Definition except_Exception {A} (h : exn -> M A) : clause A :=
  fun e => Some (h e).

Fixpoint first_clause {A} (cs : list (clause A)) (e : exn) : option (M A) :=
  match cs with
  | [] => None
  | c :: cs' => match c e with Some h => Some h | None => first_clause cs' e end
  end.

(** [try: body except ...]: the first clause that matches handles the
    exception, and what the handler raises is not handled here. *)
Definition try_except {A} (body : M A) (cs : list (clause A)) : M A :=
  fun env =>
    match body env with
    | (Ok a, sent) => (Ok a, sent)
    | (Raised e, sent) =>
        match first_clause cs e with
        | Some h => let (r, sent') := h env in (r, sent ++ sent')
        | None => (Raised e, sent)
        end
    end.

(** ** httpx *)

(** [await client.request(...)] on a fresh [httpx.AsyncClient()]: the
    request is sent, and the response is returned or the failure raised. *)
Definition send (req : Request) : M Response :=
  fun env =>
    match backend env req with
    | Responded r => (Ok r, [req])
    | ConnectFailed m => (Raised (ConnectError m), [req])
    | TimedOut m => (Raised (TimeoutException m), [req])
    end.

Definition client_post (url : ustring) (json : list (ustring * jvalue))
    (timeout : Z) : M Response :=
  send {| req_method := POST; req_url := url; req_json := Some json;
          req_timeout := timeout |}.

Definition client_put (url : ustring)
    (json : option (list (ustring * jvalue))) (timeout : Z) : M Response :=
  send {| req_method := PUT; req_url := url; req_json := json;
          req_timeout := timeout |}.

(** [response.is_success] *)
Definition is_success (r : Response) : bool :=
  ((200 <=? status_code r) && (status_code r <=? 299))%Z.

Definition raise_for_status (r : Response) : M unit :=
  if is_success r then ret tt else raise (HTTPStatusError r).

(** [response.json()] *)
Definition response_json (r : Response) : M jsonval :=
  match json_body r with
  | inl msg => raise (JSONDecodeError msg)
  | inr v => ret v
  end.

(** The items of a decoded dict, whose keys are distinct. *)
Fixpoint lookup (key : ustring) (items : list (ustring * pyvalue))
  : option pyvalue :=
  match items with
  | [] => None
  | (k, v) :: rest => if ustring_eqb k key then Some v else lookup key rest
  end.

Definition no_attribute_get (type_name : ustring) : ustring :=
  lit "'" ++ type_name ++ lit "' object has no attribute 'get'".

(** [result.get(key)]: [None] of Python is [None] here. *)
Definition get (result : jsonval) (key : ustring) : M (option pyvalue) :=
  match result with
  | JObject items => ret (lookup key items)
  | JNonObject t => raise (AttributeError (no_attribute_get t))
  end.

(** [result.get(key, default)] *)
Definition get_default (result : jsonval) (key : ustring) (default : ustring)
  : M pyvalue :=
  match result with
  | JObject items =>
      ret (match lookup key items with Some v => v | None => PyStr default end)
  | JNonObject t => raise (AttributeError (no_attribute_get t))
  end.

(** [v == s] for a [str] [s] *)
Definition equals_str (v : option pyvalue) (s : ustring) : bool :=
  match v with
  | Some (PyStr s') => ustring_eqb s' s
  | _ => false
  end.

(** [f"{v}"] *)
Definition format (v : pyvalue) : ustring :=
  match v with
  | PyStr s => s
  | PyOther printed => printed
  end.

(** [d.isoformat()] for an aware datetime in UTC. *)
Definition isoformat (d : datetime) : ustring :=
  zero_padded 4 (year d) ++ lit "-" ++ zero_padded 2 (month d) ++ lit "-"
  ++ zero_padded 2 (day d) ++ lit "T" ++ zero_padded 2 (hour d) ++ lit ":"
  ++ zero_padded 2 (minute d) ++ lit ":" ++ zero_padded 2 (second d)
  ++ (if (microsecond d =? 0)%N then []
      else lit "." ++ zero_padded 6 (microsecond d))
  ++ lit "+00:00".

(** ** The server *)

Definition cross : ustring := [0x274C]%N.            (* the cross mark *)
Definition check : ustring := [0x2705]%N.            (* the check mark *)
Definition pin : ustring := [0x1F4CD]%N.
Definition warning_sign : ustring := [0x26A0; 0xFE0F]%N.
Definition speech : ustring := [0x1F4AC]%N.
Definition link : ustring := [0x1F517]%N.
Definition stopwatch : ustring := [0x23F1; 0xFE0F]%N.
Definition newline : ustring := [0x0A]%N.

Definition format_timestamp : M ustring :=
  env <- ask ;; ret (isoformat (utcnow env)).

Definition valid_levels : list ustring :=
  [lit "CRITICAL"; lit "MAJOR"; lit "WARNING"].

Definition validate_severity (severity : ustring) : bool :=
  existsb (ustring_eqb severity) valid_levels.

(** The part all seven tools share after [response.json()]: the [else]
    branch on the body's status. *)
Definition backend_error (result : jsonval) : M ustring :=
  v <- get_default result (lit "message") (lit "Unknown error") ;;
  ret (cross ++ lit " Error: " ++ format v).

Definition create_alert (location severity message source timestamp : ustring)
  : M ustring :=
  if negb (truthy (strip location)) then
    ret (cross ++ lit " Error: Location is required")
  else if negb (truthy (strip severity)) then
    ret (cross ++ lit " Error: Severity is required")
  else if negb (truthy (strip message)) then
    ret (cross ++ lit " Error: Message is required")
  else if negb (truthy (strip source)) then
    ret (cross ++ lit " Error: Source is required")
  else if negb (validate_severity severity) then
    ret (cross ++
         lit " Error: Invalid severity. Must be one of: critical, major, warning")
  else
    alert_timestamp <-
      (if truthy (strip timestamp) then ret (strip timestamp)
       else format_timestamp) ;;
    let alert_data :=
      [(lit "location", JStr (strip location));
       (lit "severity", JStr (strip severity));
       (lit "message", JStr (strip message));
       (lit "source", JStr (strip source));
       (lit "timestamp", JStr alert_timestamp)] in
    try_except
      (env <- ask ;;
       response <- client_post (ALERTHARVEST_URL env ++ lit "/api/create_alert/")
                     alert_data 10 ;;
       raise_for_status response ;;;
       result <- response_json response ;;
       status <- get result (lit "status") ;;
       if equals_str status (lit "success") then
         ret (check ++ lit " Alert Created Successfully" ++ newline
              ++ pin ++ lit " Location: " ++ location ++ newline
              ++ warning_sign ++ lit " Severity: " ++ severity ++ newline
              ++ speech ++ lit " Message: " ++ message ++ newline
              ++ link ++ lit " Source: " ++ source ++ newline
              ++ stopwatch ++ lit " Timestamp: " ++ alert_timestamp)
       else backend_error result)
      [except_HTTPStatusError (fun r =>
         ret (cross ++ lit " API Error: HTTP " ++ str_of_int (status_code r)));
       except_Exception (fun e =>
         ret (cross ++ lit " Error: " ++ str_of_exn e))].

Definition acknowledge_alert (alert_id : ustring) : M ustring :=
  if negb (truthy (strip alert_id)) then
    ret (cross ++ lit " Error: Alert ID is required")
  else
    match int (strip alert_id) with
    | None =>
        ret (cross ++ lit " Error: Alert ID must be a number, got: " ++ alert_id)
    | Some alert_id_int =>
        try_except
          (env <- ask ;;
           response <- client_put
                         (ALERTHARVEST_URL env ++ lit "/api/acknowledge_alert/"
                          ++ str_of_int alert_id_int) None 10 ;;
           raise_for_status response ;;;
           result <- response_json response ;;
           status <- get result (lit "status") ;;
           if equals_str status (lit "success") then
             ret (check ++ lit " Alert #" ++ str_of_int alert_id_int
                  ++ lit " acknowledged successfully")
           else backend_error result)
          [except_HTTPStatusError (fun r =>
             ret (cross ++ lit " API Error: HTTP " ++ str_of_int (status_code r)
                  ++ lit " - Alert may not exist"));
           except_Exception (fun e =>
             ret (cross ++ lit " Error: " ++ str_of_exn e))]
    end.

(** [[int(id.strip()) for id in tokens if id.strip()]]; [None] when an
    [int] raises [ValueError]. *)
Fixpoint ints_of_tokens (tokens : list ustring) : option (list Z) :=
  match tokens with
  | [] => Some []
  | id :: rest =>
      if truthy (strip id) then
        match int (strip id) with
        | Some n => option_map (cons n) (ints_of_tokens rest)
        | None => None
        end
      else ints_of_tokens rest
  end.

Definition acknowledge_alerts_bulk (alert_ids : ustring) : M ustring :=
  if negb (truthy (strip alert_ids)) then
    ret (cross ++ lit " Error: Alert IDs are required (comma-separated)")
  else
    match ints_of_tokens (split comma alert_ids) with
    | None => ret (cross ++ lit " Error: All alert IDs must be numbers")
    | Some id_list =>
        if negb (truthy id_list) then
          ret (cross ++ lit " Error: No valid alert IDs provided")
        else
          try_except
            (env <- ask ;;
             response <- client_put
                           (ALERTHARVEST_URL env
                            ++ lit "/api/acknowledge_alerts_bulk/")
                           (Some [(lit "alert_ids", JIntList id_list)]) 10 ;;
             raise_for_status response ;;;
             result <- response_json response ;;
             status <- get result (lit "status") ;;
             if equals_str status (lit "success") then
               ret (check ++ lit " " ++ str_of_int (len id_list)
                    ++ lit " alerts acknowledged successfully: "
                    ++ str_of_int_list id_list)
             else backend_error result)
            [except_HTTPStatusError (fun r =>
               ret (cross ++ lit " API Error: HTTP "
                    ++ str_of_int (status_code r)));
             except_Exception (fun e =>
               ret (cross ++ lit " Error: " ++ str_of_exn e))]
    end.

Definition unacknowledge_alert (alert_id : ustring) : M ustring :=
  if negb (truthy (strip alert_id)) then
    ret (cross ++ lit " Error: Alert ID is required")
  else
    match int (strip alert_id) with
    | None =>
        ret (cross ++ lit " Error: Alert ID must be a number, got: " ++ alert_id)
    | Some alert_id_int =>
        try_except
          (env <- ask ;;
           response <- client_put
                         (ALERTHARVEST_URL env ++ lit "/api/unacknowledge_alert/"
                          ++ str_of_int alert_id_int) None 10 ;;
           raise_for_status response ;;;
           result <- response_json response ;;
           status <- get result (lit "status") ;;
           if equals_str status (lit "success") then
             ret (check ++ lit " Alert #" ++ str_of_int alert_id_int
                  ++ lit " unacknowledged successfully")
           else backend_error result)
          [except_HTTPStatusError (fun r =>
             ret (cross ++ lit " API Error: HTTP " ++ str_of_int (status_code r)
                  ++ lit " - Alert may not exist"));
           except_Exception (fun e =>
             ret (cross ++ lit " Error: " ++ str_of_exn e))]
    end.

Definition close_alert (alert_id : ustring) : M ustring :=
  if negb (truthy (strip alert_id)) then
    ret (cross ++ lit " Error: Alert ID is required")
  else
    match int (strip alert_id) with
    | None =>
        ret (cross ++ lit " Error: Alert ID must be a number, got: " ++ alert_id)
    | Some alert_id_int =>
        try_except
          (env <- ask ;;
           response <- client_put
                         (ALERTHARVEST_URL env ++ lit "/api/close_alert/"
                          ++ str_of_int alert_id_int) None 10 ;;
           raise_for_status response ;;;
           result <- response_json response ;;
           status <- get result (lit "status") ;;
           if equals_str status (lit "success") then
             ret (check ++ lit " Alert #" ++ str_of_int alert_id_int
                  ++ lit " closed successfully")
           else backend_error result)
          [except_HTTPStatusError (fun r =>
             ret (cross ++ lit " API Error: HTTP " ++ str_of_int (status_code r)
                  ++ lit " - Alert may not exist"));
           except_Exception (fun e =>
             ret (cross ++ lit " Error: " ++ str_of_exn e))]
    end.

Definition close_alerts_bulk (alert_ids : ustring) : M ustring :=
  if negb (truthy (strip alert_ids)) then
    ret (cross ++ lit " Error: Alert IDs are required (comma-separated)")
  else
    match ints_of_tokens (split comma alert_ids) with
    | None => ret (cross ++ lit " Error: All alert IDs must be numbers")
    | Some id_list =>
        if negb (truthy id_list) then
          ret (cross ++ lit " Error: No valid alert IDs provided")
        else
          try_except
            (env <- ask ;;
             response <- client_put
                           (ALERTHARVEST_URL env ++ lit "/api/close_alerts_bulk/")
                           (Some [(lit "alert_ids", JIntList id_list)]) 10 ;;
             raise_for_status response ;;;
             result <- response_json response ;;
             status <- get result (lit "status") ;;
             if equals_str status (lit "success") then
               ret (check ++ lit " " ++ str_of_int (len id_list)
                    ++ lit " alerts closed successfully: "
                    ++ str_of_int_list id_list)
             else backend_error result)
            [except_HTTPStatusError (fun r =>
               ret (cross ++ lit " API Error: HTTP "
                    ++ str_of_int (status_code r)));
             except_Exception (fun e =>
               ret (cross ++ lit " Error: " ++ str_of_exn e))]
    end.

Definition close_expired_alerts : M ustring :=
  try_except
    (env <- ask ;;
     response <- client_put
                   (ALERTHARVEST_URL env ++ lit "/api/close_expired_alerts/")
                   None 10 ;;
     raise_for_status response ;;;
     result <- response_json response ;;
     status <- get result (lit "status") ;;
     if equals_str status (lit "success") then
       v <- get_default result (lit "message")
              (lit "Expired alerts closed successfully") ;;
       ret (check ++ lit " " ++ format v)
     else backend_error result)
    [except_HTTPStatusError (fun r =>
       ret (cross ++ lit " API Error: HTTP " ++ str_of_int (status_code r)));
     except_Exception (fun e =>
       ret (cross ++ lit " Error: " ++ str_of_exn e))].

(** The tools registered with [@mcp.tool()], and a call of one of them. *)
Inductive ToolCall :=
| CreateAlert (location severity message source timestamp : ustring)
| AcknowledgeAlert (alert_id : ustring)
| AcknowledgeAlertsBulk (alert_ids : ustring)
| UnacknowledgeAlert (alert_id : ustring)
| CloseAlert (alert_id : ustring)
| CloseAlertsBulk (alert_ids : ustring)
| CloseExpiredAlerts.

Definition call_tool (c : ToolCall) : M ustring :=
  match c with
  | CreateAlert location severity message source timestamp =>
      create_alert location severity message source timestamp
  | AcknowledgeAlert alert_id => acknowledge_alert alert_id
  | AcknowledgeAlertsBulk alert_ids => acknowledge_alerts_bulk alert_ids
  | UnacknowledgeAlert alert_id => unacknowledge_alert alert_id
  | CloseAlert alert_id => close_alert alert_id
  | CloseAlertsBulk alert_ids => close_alerts_bulk alert_ids
  | CloseExpiredAlerts => close_expired_alerts
  end.

(** What the caller gets back, and the requests that were sent. *)
Definition returned {A} (m : M A) (env : Env) : result A := fst (m env).
Definition requests {A} (m : M A) (env : Env) : list Request := snd (m env).

(** ** The vocabulary of the specification *)

(** A string is blank when stripping leaves nothing. *)
Definition blank (s : ustring) : bool := negb (truthy (strip s)).

(** The two shapes of a result: a success string starts with the check
    mark, a failure string with the cross mark. *)
Definition is_success_string (s : ustring) : bool := starts_with check s.
Definition is_failure_string (s : ustring) : bool := starts_with cross s.

Inductive Field :=
| Location | Severity | Message | Source | AlertId | AlertIds.

(** The required fields of each operation, in the order of the table of
    validation rules, each with the argument the caller gave for it. *)
Definition required_fields (c : ToolCall) : list (Field * ustring) :=
  match c with
  | CreateAlert location severity message source _ =>
      [(Location, location); (Severity, severity); (Message, message);
       (Source, source)]
  | AcknowledgeAlert alert_id | UnacknowledgeAlert alert_id
  | CloseAlert alert_id => [(AlertId, alert_id)]
  | AcknowledgeAlertsBulk alert_ids | CloseAlertsBulk alert_ids =>
      [(AlertIds, alert_ids)]
  | CloseExpiredAlerts => []
  end.

(** How a failure string names a field. *)
Definition field_name (f : Field) : ustring :=
  match f with
  | Location => lit "Location"
  | Severity => lit "Severity"
  | Message => lit "Message"
  | Source => lit "Source"
  | AlertId => lit "Alert ID"
  | AlertIds => lit "Alert IDs"
  end.

(** The identifiers of a bulk call in the words of the specification:
    split on commas, trim each token, drop the empty ones; every one that
    remains must parse as an integer, and one at least must remain. *)
Definition spec_tokens (alert_ids : ustring) : list ustring :=
  filter truthy (map strip (split comma alert_ids)).

Fixpoint all_ints (tokens : list ustring) : option (list Z) :=
  match tokens with
  | [] => Some []
  | t :: rest =>
      match int t, all_ints rest with
      | Some n, Some ns => Some (n :: ns)
      | _, _ => None
      end
  end.

Definition spec_ids (alert_ids : ustring) : option (list Z) :=
  match all_ints (spec_tokens alert_ids) with
  | Some [] => None
  | r => r
  end.

(** The failure string for a blank required field. *)
Definition required_error (f : Field) : ustring :=
  cross ++ lit " Error: " ++ field_name f ++
  match f with
  | AlertIds => lit " are required (comma-separated)"
  | _ => lit " is required"
  end.

Definition invalid_severity_error : ustring :=
  cross ++
  lit " Error: Invalid severity. Must be one of: critical, major, warning".

(** The two bulk operations. *)
Inductive BulkOp := AcknowledgeBulk | CloseBulk.

Definition bulk_tool (op : BulkOp) : ustring -> M ustring :=
  match op with
  | AcknowledgeBulk => acknowledge_alerts_bulk
  | CloseBulk => close_alerts_bulk
  end.

Definition bulk_path (op : BulkOp) : ustring :=
  match op with
  | AcknowledgeBulk => lit "/api/acknowledge_alerts_bulk/"
  | CloseBulk => lit "/api/close_alerts_bulk/"
  end.

Definition bulk_verb (op : BulkOp) : ustring :=
  match op with
  | AcknowledgeBulk => lit "acknowledged"
  | CloseBulk => lit "closed"
  end.

Definition bulk_request (env : Env) (op : BulkOp) (ids : list Z) : Request :=
  {| req_method := PUT;
     req_url := ALERTHARVEST_URL env ++ bulk_path op;
     req_json := Some [(lit "alert_ids", JIntList ids)];
     req_timeout := 10 |}.

(** The request a create call sends, for the timestamp it settled on. *)
Definition create_request (env : Env)
    (location severity message source alert_timestamp : ustring) : Request :=
  {| req_method := POST;
     req_url := ALERTHARVEST_URL env ++ lit "/api/create_alert/";
     req_json := Some [(lit "location", JStr location);
                       (lit "severity", JStr severity);
                       (lit "message", JStr message);
                       (lit "source", JStr source);
                       (lit "timestamp", JStr alert_timestamp)];
     req_timeout := 10 |}.

(** The confirmation of a create call, for the values it echoes. *)
Definition created_string
    (location severity message source alert_timestamp : ustring) : ustring :=
  check ++ lit " Alert Created Successfully" ++ newline
  ++ pin ++ lit " Location: " ++ location ++ newline
  ++ warning_sign ++ lit " Severity: " ++ severity ++ newline
  ++ speech ++ lit " Message: " ++ message ++ newline
  ++ link ++ lit " Source: " ++ source ++ newline
  ++ stopwatch ++ lit " Timestamp: " ++ alert_timestamp.

(** A string has whitespace at its start or at its end. *)
Definition outer_whitespace (s : ustring) : bool :=
  match s with
  | [] => false
  | c :: r => isspace c || isspace (last r c)
  end.

(** The string a tool returns for each outcome of its request, when
    [success items] is its success string and [hint] follows the status
    code in the failure string of an HTTP error. *)
Definition translate (success : list (ustring * pyvalue) -> ustring)
    (hint : ustring) (o : NetOutcome) : ustring :=
  match o with
  | Responded r =>
      if is_success r then
        match json_body r with
        | inl msg => cross ++ lit " Error: " ++ msg
        | inr (JNonObject t) => cross ++ lit " Error: " ++ no_attribute_get t
        | inr (JObject items) =>
            if equals_str (lookup (lit "status") items) (lit "success")
            then success items
            else cross ++ lit " Error: " ++
                 match lookup (lit "message") items with
                 | Some v => format v
                 | None => lit "Unknown error"
                 end
        end
      else cross ++ lit " API Error: HTTP " ++ str_of_int (status_code r)
           ++ hint
  | ConnectFailed m | TimedOut m => cross ++ lit " Error: " ++ m
  end.

Definition id_request (env : Env) (path : ustring) (id : Z) : Request :=
  {| req_method := PUT;
     req_url := ALERTHARVEST_URL env ++ path ++ str_of_int id;
     req_json := None;
     req_timeout := 10 |}.

Definition expired_request (env : Env) : Request :=
  {| req_method := PUT;
     req_url := ALERTHARVEST_URL env ++ lit "/api/close_expired_alerts/";
     req_json := None;
     req_timeout := 10 |}.

Definition timestamp_of (env : Env) (timestamp : ustring) : ustring :=
  if blank timestamp then isoformat (utcnow env) else strip timestamp.

(** ISO 8601 with the UTC offset: [YYYY-MM-DDTHH:MM:SS], an optional
    [.ffffff], then [+00:00]. *)
Definition is_digit (c : N) : bool := ((0x30 <=? c) && (c <=? 0x39))%N.

Fixpoint eat_digits (k : nat) (s : ustring) : option ustring :=
  match k, s with
  | O, _ => Some s
  | S k', c :: r => if is_digit c then eat_digits k' r else None
  | S _, [] => None
  end.

Fixpoint eat (p s : ustring) : option ustring :=
  match p, s with
  | [], _ => Some s
  | a :: p', b :: s' => if (a =? b)%N then eat p' s' else None
  | _ :: _, [] => None
  end.

Definition and_then (o : option ustring) (f : ustring -> option ustring)
  : option ustring :=
  match o with Some s => f s | None => None end.

Definition eat_fraction (s : ustring) : option ustring :=
  match eat (lit ".") s with
  | Some r => eat_digits 6 r
  | None => Some s
  end.

Definition iso8601_utc (s : ustring) : bool :=
  match
    and_then (and_then (and_then (and_then (and_then (and_then (and_then
    (and_then (and_then (and_then (and_then (and_then (eat_digits 4 s)
      (eat (lit "-"))) (eat_digits 2)) (eat (lit "-"))) (eat_digits 2))
      (eat (lit "T"))) (eat_digits 2)) (eat (lit ":"))) (eat_digits 2))
      (eat (lit ":"))) (eat_digits 2)) eat_fraction) (eat (lit "+00:00"))
  with
  | Some [] => true
  | _ => false
  end.

(** The ranges of the fields of a Python [datetime]. *)
Definition valid_datetime (d : datetime) : Prop :=
  (1 <= year d <= 9999 /\ 1 <= month d <= 12 /\ 1 <= day d <= 31 /\
   hour d <= 23 /\ minute d <= 59 /\ second d <= 59 /\
   microsecond d <= 999999)%N.

(** An environment for the examples: the default URL, a backend with one
    answer for every request, and a clock reading. *)
Definition example_env (o : NetOutcome) : Env :=
  {| ALERTHARVEST_URL := lit "http://127.0.0.1:8000";
     backend := fun _ => o;
     utcnow := {| year := 2024; month := 1; day := 2; hour := 3;
                  minute := 4; second := 5; microsecond := 7 |} |}.

Definition ok_response (items : list (ustring * pyvalue)) : NetOutcome :=
  Responded {| status_code := 200; status_error := [];
               json_body := inr (JObject items) |}.

Definition success_body : list (ustring * pyvalue) :=
  [(lit "status", PyStr (lit "success"))].

(** The success string of [close_expired_alerts]. *)
Definition expired_string (items : list (ustring * pyvalue)) : ustring :=
  check ++ lit " " ++
  match lookup (lit "message") items with
  | Some v => format v
  | None => lit "Expired alerts closed successfully"
  end.

Definition error_body : list (ustring * pyvalue) :=
  [(lit "status", PyStr (lit "error")); (lit "message", PyStr (lit "not found"))].

Definition status_response (code : Z) (body : ustring + jsonval) : NetOutcome :=
  Responded {| status_code := code; status_error := []; json_body := body |}.

(** The validation rules of the operations: every required field is
    there, and the severity is one of the levels, the identifier parses,
    or the identifiers parse. *)
Definition valid_call (c : ToolCall) : bool :=
  forallb (fun fv => negb (blank (snd fv))) (required_fields c)
  && match c with
     | CreateAlert _ severity _ _ _ =>
         existsb (ustring_eqb severity) [lit "CRITICAL"; lit "MAJOR"; lit "WARNING"]
     | AcknowledgeAlert alert_id | UnacknowledgeAlert alert_id
     | CloseAlert alert_id =>
         match int (strip alert_id) with Some _ => true | None => false end
     | AcknowledgeAlertsBulk alert_ids | CloseAlertsBulk alert_ids =>
         match spec_ids alert_ids with Some _ => true | None => false end
     | CloseExpiredAlerts => true
     end.

(** What follows the status code in the failure string of an HTTP
    error. *)
Definition http_hint (c : ToolCall) : ustring :=
  match c with
  | AcknowledgeAlert _ | UnacknowledgeAlert _ | CloseAlert _ =>
      lit " - Alert may not exist"
  | _ => []
  end.

Definition http_failure (c : ToolCall) (code : Z) : ustring :=
  cross ++ lit " API Error: HTTP " ++ str_of_int code ++ http_hint c.

(** The failure string for a body whose status is not ["success"]. *)
Definition backend_failure (items : list (ustring * pyvalue)) : ustring :=
  cross ++ lit " Error: " ++
  match lookup (lit "message") items with
  | Some v => format v
  | None => lit "Unknown error"
  end.

(** What a call does, in one piece: it is rejected with a failure string
    before anything is sent, or it sends one request, with a success
    string and a hint for the outcome of that request. *)
Inductive Plan :=
| Reject (error : ustring)
| Send (request : Request) (success : list (ustring * pyvalue) -> ustring)
       (hint : ustring).

Definition id_plan (env : Env) (alert_id path done : ustring) : Plan :=
  if blank alert_id then Reject (required_error AlertId)
  else match int (strip alert_id) with
       | None =>
           Reject (cross ++ lit " Error: Alert ID must be a number, got: "
                   ++ alert_id)
       | Some n =>
           Send (id_request env path n)
                (fun _ => check ++ lit " Alert #" ++ str_of_int n ++ done)
                (lit " - Alert may not exist")
       end.

Definition bulk_success (op : BulkOp) (ids : list Z) : ustring :=
  check ++ lit " " ++ str_of_int (len ids) ++ lit " alerts " ++ bulk_verb op
  ++ lit " successfully: " ++ str_of_int_list ids.

Definition bulk_plan (env : Env) (op : BulkOp) (alert_ids : ustring) : Plan :=
  if blank alert_ids then Reject (required_error AlertIds)
  else match ints_of_tokens (split comma alert_ids) with
       | None => Reject (cross ++ lit " Error: All alert IDs must be numbers")
       | Some [] => Reject (cross ++ lit " Error: No valid alert IDs provided")
       | Some ids =>
           Send (bulk_request env op ids) (fun _ => bulk_success op ids) []
       end.

Definition plan (c : ToolCall) (env : Env) : Plan :=
  match c with
  | CreateAlert location severity message source timestamp =>
      if blank location then Reject (required_error Location)
      else if blank severity then Reject (required_error Severity)
      else if blank message then Reject (required_error Message)
      else if blank source then Reject (required_error Source)
      else if negb (validate_severity severity)
      then Reject invalid_severity_error
      else Send (create_request env (strip location) (strip severity)
                   (strip message) (strip source) (timestamp_of env timestamp))
                (fun _ => created_string location severity message source
                            (timestamp_of env timestamp))
                []
  | AcknowledgeAlert alert_id =>
      id_plan env alert_id (lit "/api/acknowledge_alert/")
        (lit " acknowledged successfully")
  | UnacknowledgeAlert alert_id =>
      id_plan env alert_id (lit "/api/unacknowledge_alert/")
        (lit " unacknowledged successfully")
  | CloseAlert alert_id =>
      id_plan env alert_id (lit "/api/close_alert/")
        (lit " closed successfully")
  | AcknowledgeAlertsBulk alert_ids => bulk_plan env AcknowledgeBulk alert_ids
  | CloseAlertsBulk alert_ids => bulk_plan env CloseBulk alert_ids
  | CloseExpiredAlerts => Send (expired_request env) expired_string []
  end.

Definition run_plan (p : Plan) (env : Env) : result ustring * list Request :=
  match p with
  | Reject error => (Ok error, [])
  | Send request success hint =>
      (Ok (translate success hint (backend env request)), [request])
  end.

(** The three tools that take one identifier. *)
Inductive IdOp := AcknowledgeOne | UnacknowledgeOne | CloseOne.

Definition id_call (op : IdOp) (alert_id : ustring) : ToolCall :=
  match op with
  | AcknowledgeOne => AcknowledgeAlert alert_id
  | UnacknowledgeOne => UnacknowledgeAlert alert_id
  | CloseOne => CloseAlert alert_id
  end.

Definition id_path (op : IdOp) : ustring :=
  match op with
  | AcknowledgeOne => lit "/api/acknowledge_alert/"
  | UnacknowledgeOne => lit "/api/unacknowledge_alert/"
  | CloseOne => lit "/api/close_alert/"
  end.

(** The failure string for an identifier that is not a number. *)
Definition not_a_number (alert_id : ustring) : ustring :=
  cross ++ lit " Error: Alert ID must be a number, got: " ++ alert_id.

(** The method of the request of each tool, and whether it has a body. *)
Definition method_of (c : ToolCall) : method :=
  match c with
  | CreateAlert _ _ _ _ _ => POST
  | _ => PUT
  end.

Definition has_body (c : ToolCall) : bool :=
  match c with
  | CreateAlert _ _ _ _ _ | AcknowledgeAlertsBulk _ | CloseAlertsBulk _ => true
  | _ => false
  end.

(** The text fields of the body of a request. *)
Definition text_fields (req : Request) : list (ustring * ustring) :=
  match req_json req with
  | Some items =>
      flat_map (fun kv => match snd kv with
                          | JStr s => [(fst kv, s)]
                          | JIntList _ => []
                          end) items
  | None => []
  end.

(** * Properties *)

(** ** Every tool follows its plan *)

Ltac step :=
  cbn [first_clause except_HTTPStatusError except_Exception fst snd app].

Ltac run_monad :=
  unfold try_except, backend_error, get, get_default, response_json,
    raise_for_status, client_post, client_put, send, format_timestamp,
    bind, ask, ret, raise; step.

(** The cases of the outcome of the request [req]. *)
Ltac outcome_cases env req :=
  let r := fresh "r" in
  let items := fresh "items" in
  destruct (backend env req) as [r | ? | ?]; step;
  [ destruct (is_success r); step;
    [ destruct (json_body r) as [? | [items | ?]]; step;
      [ | destruct (equals_str (lookup (lit "status") items) (lit "success"));
          step; try destruct (lookup (lit "message") items) | ]
    | ]
  | | ];
  rewrite ?app_nil_r; try reflexivity.

Lemma id_tool_plan :
  forall env alert_id,
    acknowledge_alert alert_id env
    = run_plan (plan (AcknowledgeAlert alert_id) env) env
    /\ unacknowledge_alert alert_id env
       = run_plan (plan (UnacknowledgeAlert alert_id) env) env
    /\ close_alert alert_id env
       = run_plan (plan (CloseAlert alert_id) env) env.
Proof.
  intros env alert_id.
  unfold acknowledge_alert, unacknowledge_alert, close_alert, plan, id_plan,
    blank.
  destruct (negb (truthy (strip alert_id))).
  - repeat split; reflexivity.
  - destruct (int (strip alert_id)) as [n |].
    + unfold run_plan, translate, id_request. run_monad.
      repeat split;
        match goal with
        | |- context [backend env ?req] => outcome_cases env req
        end.
    + repeat split; reflexivity.
Qed.

Lemma bulk_tool_plan :
  forall env alert_ids,
    acknowledge_alerts_bulk alert_ids env
    = run_plan (plan (AcknowledgeAlertsBulk alert_ids) env) env
    /\ close_alerts_bulk alert_ids env
       = run_plan (plan (CloseAlertsBulk alert_ids) env) env.
Proof.
  intros env alert_ids.
  unfold acknowledge_alerts_bulk, close_alerts_bulk, plan, bulk_plan, blank.
  destruct (negb (truthy (strip alert_ids))).
  - split; reflexivity.
  - destruct (ints_of_tokens (split comma alert_ids)) as [[| id ids] |].
    + split; reflexivity.
    + unfold run_plan, translate, bulk_request, bulk_success, bulk_path,
        bulk_verb.
      run_monad. cbn [truthy negb].
      split;
        match goal with
        | |- context [backend env ?req] => outcome_cases env req
        end.
    + split; reflexivity.
Qed.

Lemma create_alert_plan :
  forall env location severity message source timestamp,
    create_alert location severity message source timestamp env
    = run_plan (plan (CreateAlert location severity message source timestamp)
                  env) env.
Proof.
  intros env location severity message source timestamp.
  unfold create_alert, plan, blank.
  destruct (negb (truthy (strip location))); [reflexivity |].
  destruct (negb (truthy (strip severity))); [reflexivity |].
  destruct (negb (truthy (strip message))); [reflexivity |].
  destruct (negb (truthy (strip source))); [reflexivity |].
  destruct (negb (validate_severity severity)); [reflexivity |].
  unfold run_plan, translate, create_request, created_string, timestamp_of,
    blank.
  destruct (truthy (strip timestamp)); cbn [negb]; run_monad;
    match goal with
    | |- context [backend env ?req] => outcome_cases env req
    end.
Qed.

Lemma close_expired_alerts_plan :
  forall env,
    close_expired_alerts env = run_plan (plan CloseExpiredAlerts env) env.
Proof.
  intros env.
  unfold close_expired_alerts, plan, run_plan, translate, expired_request,
    expired_string.
  run_monad.
  match goal with
  | |- context [backend env ?req] => outcome_cases env req
  end.
Qed.

(** Every call is its plan, run against the backend. *)
Lemma call_tool_plan :
  forall c env, call_tool c env = run_plan (plan c env) env.
Proof.
  intros [location severity message source timestamp | alert_id | alert_ids
         | alert_id | alert_id | alert_ids |] env; cbn [call_tool].
  - apply create_alert_plan.
  - apply (id_tool_plan env alert_id).
  - apply (bulk_tool_plan env alert_ids).
  - apply (id_tool_plan env alert_id).
  - apply (id_tool_plan env alert_id).
  - apply (bulk_tool_plan env alert_ids).
  - apply close_expired_alerts_plan.
Qed.

(** The success string of a plan is a success string, and its hint is
    the one of the operation. *)
Lemma plan_send_shape :
  forall c env request success hint,
    plan c env = Send request success hint ->
    hint = http_hint c
    /\ forall items, is_success_string (success items) = true.
Proof.
  intros c env request success hint.
  destruct c as [location severity message source timestamp | alert_id
                | alert_ids | alert_id | alert_id | alert_ids |];
    cbn [plan http_hint]; unfold id_plan, bulk_plan.
  - destruct (blank location); [discriminate |].
    destruct (blank severity); [discriminate |].
    destruct (blank message); [discriminate |].
    destruct (blank source); [discriminate |].
    destruct (negb (validate_severity severity)); [discriminate |].
    intros H. injection H as _ <- <-. split; reflexivity.
  - destruct (blank alert_id); [discriminate |].
    destruct (int (strip alert_id)); [| discriminate].
    intros H. injection H as _ <- <-. split; reflexivity.
  - destruct (blank alert_ids); [discriminate |].
    destruct (ints_of_tokens (split comma alert_ids)) as [[| id ids] |];
      try discriminate.
    intros H. injection H as _ <- <-. split; reflexivity.
  - destruct (blank alert_id); [discriminate |].
    destruct (int (strip alert_id)); [| discriminate].
    intros H. injection H as _ <- <-. split; reflexivity.
  - destruct (blank alert_id); [discriminate |].
    destruct (int (strip alert_id)); [| discriminate].
    intros H. injection H as _ <- <-. split; reflexivity.
  - destruct (blank alert_ids); [discriminate |].
    destruct (ints_of_tokens (split comma alert_ids)) as [[| id ids] |];
      try discriminate.
    intros H. injection H as _ <- <-. split; reflexivity.
  - intros H. injection H as _ <- <-. split; reflexivity.
Qed.

(** ** Strings *)

Section Stripping.

Variable sp : N -> bool.

Lemma lstrip_by_nil :
  forall s, lstrip_by sp s = [] <-> forallb sp s = true.
Proof.
  induction s as [| c r IH]; cbn.
  - split; reflexivity.
  - destruct (sp c); cbn; [exact IH | split; discriminate].
Qed.

Lemma lstrip_by_head :
  forall s c r, lstrip_by sp s = c :: r -> sp c = false.
Proof.
  induction s as [| a s IH]; cbn; intros c r H; [discriminate |].
  destruct (sp a) eqn:E; [eauto |].
  injection H as <- _. exact E.
Qed.

Lemma lstrip_by_length :
  forall s, (List.length (lstrip_by sp s) <= List.length s)%nat.
Proof.
  induction s as [| c r IH]; cbn; [lia |].
  destruct (sp c); cbn; lia.
Qed.

Lemma lstrip_by_shorter :
  forall c r, sp c = true ->
    (List.length (lstrip_by sp (c :: r)) < List.length (c :: r))%nat.
Proof.
  intros c r H. cbn. rewrite H.
  pose proof (lstrip_by_length r). lia.
Qed.

Lemma strip_by_nil :
  forall s, strip_by sp s = [] <-> forallb sp s = true.
Proof.
  intros s. unfold strip_by. split.
  - intros H.
    apply (f_equal (@rev N)) in H. rewrite rev_involutive in H. cbn in H.
    apply lstrip_by_nil in H.
    destruct (lstrip_by sp s) as [| c r] eqn:E.
    + apply lstrip_by_nil. exact E.
    + apply lstrip_by_head in E.
      rewrite forallb_forall in H.
      rewrite (H c) in E; [discriminate |].
      apply in_rev. rewrite rev_involutive. left. reflexivity.
  - intros H. apply lstrip_by_nil in H. rewrite H. reflexivity.
Qed.

(** A string that starts or ends with a character to strip is changed
    by stripping. *)
Lemma strip_by_changes :
  forall c r, sp c || sp (last r c) = true -> strip_by sp (c :: r) <> c :: r.
Proof.
  intros c r H E.
  apply orb_true_iff in H. destruct H as [H | H].
  - pose proof (lstrip_by_shorter c r H) as L.
    apply (f_equal (@List.length N)) in E.
    unfold strip_by in E. rewrite length_rev in E.
    pose proof (lstrip_by_length (rev (lstrip_by sp (c :: r)))) as L'.
    rewrite length_rev in L'. lia.
  - assert (R : exists t, rev (c :: r) = last r c :: t).
    { destruct (@exists_last _ (c :: r)) as [t [a Ht]]; [discriminate |].
      assert (La : last (c :: r) c = a) by (rewrite Ht; apply last_last).
      assert (Lc : last (c :: r) c = last r c)
        by (destruct r; reflexivity).
      exists (rev t). rewrite Ht, rev_app_distr. cbn. congruence. }
    destruct R as [t Ht].
    unfold strip_by in E.
    destruct (sp c) eqn:Hc.
    + pose proof (lstrip_by_shorter c r Hc) as L.
      apply (f_equal (@List.length N)) in E. rewrite length_rev in E.
      pose proof (lstrip_by_length (rev (lstrip_by sp (c :: r)))) as L'.
      rewrite length_rev in L'. lia.
    + assert (Hl : lstrip_by sp (c :: r) = c :: r) by (cbn; rewrite Hc; reflexivity).
      rewrite Hl, Ht in E.
      pose proof (lstrip_by_shorter (last r c) t H) as L.
      apply (f_equal (@List.length N)) in E. rewrite length_rev in E.
      rewrite <- Ht in E. rewrite <- Ht in L. rewrite length_rev in L. lia.
Qed.

End Stripping.

Lemma blank_true_iff :
  forall s, blank s = true <-> forallb isspace s = true.
Proof.
  intros s. unfold blank, strip.
  rewrite <- strip_by_nil.
  destruct (strip_by isspace s); cbn; split; intros H;
    try reflexivity; discriminate.
Qed.

Lemma outer_whitespace_changes :
  forall s, outer_whitespace s = true -> strip s <> s.
Proof.
  intros [| c r] H; [discriminate |].
  apply strip_by_changes. exact H.
Qed.

Lemma split_without_separator :
  forall sep s,
    forallb (fun c => negb (c =? sep)%N) s = true -> split sep s = [s].
Proof.
  intros sep. induction s as [| c r IH]; cbn; intros H; [reflexivity |].
  apply andb_true_iff in H. destruct H as [Hc Hr].
  apply negb_true_iff in Hc. rewrite Hc, (IH Hr). reflexivity.
Qed.

(** A blank string has no comma, so it is its own single token. *)
Lemma blank_tokens :
  forall s, blank s = true -> spec_tokens s = [].
Proof.
  intros s H. unfold spec_tokens.
  rewrite split_without_separator.
  - cbn. unfold blank in H. destruct (strip s); [reflexivity | discriminate].
  - apply blank_true_iff in H. rewrite forallb_forall in *.
    intros c Hc. specialize (H c Hc).
    destruct (N.eqb_spec c comma) as [-> |]; [discriminate | reflexivity].
Qed.

Lemma ustring_eqb_eq :
  forall a b, ustring_eqb a b = true <-> a = b.
Proof.
  intros a b. unfold ustring_eqb.
  destruct (list_eq_dec N.eq_dec a b); split; congruence.
Qed.

Lemma starts_with_app :
  forall p s, starts_with p (p ++ s) = true.
Proof.
  induction p as [| a p IH]; intros s; cbn; [reflexivity |].
  rewrite N.eqb_refl. apply IH.
Qed.

Lemma contains_here :
  forall needle s, contains needle (needle ++ s) = true.
Proof.
  intros needle s.
  destruct (needle ++ s) eqn:E; cbn; rewrite <- E, starts_with_app;
    reflexivity.
Qed.

Lemma contains_after :
  forall needle a s, contains needle s = true -> contains needle (a ++ s) = true.
Proof.
  intros needle. induction a as [| c a IH]; intros s H; [exact H |].
  cbn [app contains]. rewrite (IH s H). apply orb_true_r.
Qed.

Lemma contains_middle :
  forall needle a b, contains needle (a ++ needle ++ b) = true.
Proof.
  intros. apply contains_after, contains_here.
Qed.

Lemma failure_string_cross :
  forall s, is_failure_string (cross ++ s) = true.
Proof. intros s. apply starts_with_app. Qed.

Lemma required_error_failure :
  forall f, is_failure_string (required_error f) = true.
Proof. intros f. apply failure_string_cross. Qed.

Lemma cross_not_success :
  forall s, is_success_string (cross ++ s) = false.
Proof. reflexivity. Qed.

(** ** Bulk identifiers *)

(** The comprehension of the bulk tools is the staged description of the
    specification: trim the tokens, drop the empty ones, parse the rest. *)
Lemma ints_of_tokens_staged :
  forall tokens,
    ints_of_tokens tokens = all_ints (filter truthy (map strip tokens)).
Proof.
  induction tokens as [| t rest IH]; cbn [ints_of_tokens map filter];
    [reflexivity |].
  destruct (truthy (strip t)); [| exact IH].
  cbn [all_ints]. rewrite IH.
  destruct (int (strip t)); [| reflexivity].
  destruct (all_ints (filter truthy (map strip rest))); reflexivity.
Qed.

Lemma all_ints_length :
  forall tokens ids,
    all_ints tokens = Some ids -> List.length ids = List.length tokens.
Proof.
  induction tokens as [| t rest IH]; cbn; intros ids H.
  - injection H as <-. reflexivity.
  - destruct (int t); [| discriminate].
    destruct (all_ints rest) as [ns |]; [| discriminate].
    injection H as <-. cbn. rewrite (IH ns eq_refl). reflexivity.
Qed.

Lemma all_ints_map :
  forall tokens ids,
    all_ints tokens = Some ids -> map int tokens = map Some ids.
Proof.
  induction tokens as [| t rest IH]; cbn; intros ids H.
  - injection H as <-. reflexivity.
  - destruct (int t) as [n |]; [| discriminate].
    destruct (all_ints rest) as [ns |]; [| discriminate].
    injection H as <-. cbn. rewrite (IH ns eq_refl). reflexivity.
Qed.

Lemma all_ints_none :
  forall tokens,
    all_ints tokens = None <-> exists t, In t tokens /\ int t = None.
Proof.
  induction tokens as [| t rest IH]; cbn.
  - split; [discriminate | intros [t [[] _]]].
  - destruct (int t) as [n |] eqn:E.
    + destruct (all_ints rest) as [ns |].
      * split; [discriminate |].
        intros [t' [[<- | Hin] Ht']]; [congruence |].
        assert (Hn : @Some (list Z) ns = None)
          by (apply IH; exists t'; split; assumption).
        discriminate.
      * split; [| reflexivity].
        intros _. destruct (proj1 IH eq_refl) as [t' [Hin Ht']].
        exists t'. split; [right |]; assumption.
    + split; [| reflexivity].
      intros _. exists t. split; [left; reflexivity | exact E].
Qed.

(** The plan of a bulk call, read off the identifiers of the
    specification. *)
Lemma bulk_plan_spec :
  forall env op alert_ids,
    match spec_ids alert_ids with
    | Some ids =>
        bulk_plan env op alert_ids
        = Send (bulk_request env op ids) (fun _ => bulk_success op ids) []
    | None =>
        exists error, bulk_plan env op alert_ids = Reject error
                      /\ is_failure_string error = true
    end.
Proof.
  intros env op alert_ids. unfold spec_ids, bulk_plan.
  destruct (blank alert_ids) eqn:B.
  - rewrite (blank_tokens alert_ids B). cbn.
    eexists. split; [reflexivity | reflexivity].
  - rewrite ints_of_tokens_staged. fold (spec_tokens alert_ids).
    destruct (all_ints (spec_tokens alert_ids)) as [[| id ids] |].
    + eexists. split; [reflexivity | reflexivity].
    + reflexivity.
    + eexists. split; [reflexivity | reflexivity].
Qed.

Lemma bulk_tool_run :
  forall op env alert_ids,
    bulk_tool op alert_ids env = run_plan (bulk_plan env op alert_ids) env.
Proof.
  intros [] env alert_ids; apply (bulk_tool_plan env alert_ids).
Qed.

(** ** Validation comes first *)

Lemma translate_shape :
  forall success hint o,
    (forall items, is_success_string (success items) = true) ->
    is_success_string (translate success hint o) = true
    \/ is_failure_string (translate success hint o) = true.
Proof.
  intros success hint o Hs. unfold translate.
  destruct o as [r | m | m]; try (right; apply failure_string_cross).
  destruct (is_success r); [| right; apply failure_string_cross].
  destruct (json_body r) as [msg | [items | t]];
    try (right; apply failure_string_cross).
  destruct (equals_str (lookup (lit "status") items) (lit "success"));
    [left; apply Hs | right; apply failure_string_cross].
Qed.

(** A call is rejected exactly when a validation rule fails, and then
    with a failure string; otherwise it sends its request. *)
Lemma plan_of_valid_call :
  forall c env,
    if valid_call c
    then exists request success hint, plan c env = Send request success hint
    else exists error, plan c env = Reject error
                       /\ is_failure_string error = true.
Proof.
  intros c env.
  destruct c as [location severity message source timestamp | alert_id
                | alert_ids | alert_id | alert_id | alert_ids |];
    unfold valid_call; cbn [required_fields forallb snd plan];
    unfold id_plan.
  - fold valid_levels. fold (validate_severity severity).
    destruct (blank location); cbn [negb andb];
      [eexists; split; reflexivity |].
    destruct (blank severity); cbn [negb andb];
      [eexists; split; reflexivity |].
    destruct (blank message); cbn [negb andb];
      [eexists; split; reflexivity |].
    destruct (blank source); cbn [negb andb];
      [eexists; split; reflexivity |].
    destruct (validate_severity severity); cbn [negb];
      [do 3 eexists; reflexivity | eexists; split; reflexivity].
  - destruct (blank alert_id); cbn [negb andb];
      [eexists; split; reflexivity |].
    destruct (int (strip alert_id));
      [do 3 eexists; reflexivity | eexists; split; reflexivity].
  - pose proof (bulk_plan_spec env AcknowledgeBulk alert_ids) as P.
    destruct (blank alert_ids) eqn:B; cbn [negb andb].
    + unfold bulk_plan. rewrite B. eexists. split; reflexivity.
    + destruct (spec_ids alert_ids); [do 3 eexists; exact P | exact P].
  - destruct (blank alert_id); cbn [negb andb];
      [eexists; split; reflexivity |].
    destruct (int (strip alert_id));
      [do 3 eexists; reflexivity | eexists; split; reflexivity].
  - destruct (blank alert_id); cbn [negb andb];
      [eexists; split; reflexivity |].
    destruct (int (strip alert_id));
      [do 3 eexists; reflexivity | eexists; split; reflexivity].
  - pose proof (bulk_plan_spec env CloseBulk alert_ids) as P.
    destruct (blank alert_ids) eqn:B; cbn [negb andb].
    + unfold bulk_plan. rewrite B. eexists. split; reflexivity.
    + destruct (spec_ids alert_ids); [do 3 eexists; exact P | exact P].
  - do 3 eexists. reflexivity.
Qed.

Lemma invalid_call_sends_nothing :
  forall c env,
    valid_call c = false ->
    requests (call_tool c) env = []
    /\ exists error, returned (call_tool c) env = Ok error
                     /\ is_failure_string error = true.
Proof.
  intros c env H. unfold requests, returned. rewrite call_tool_plan.
  pose proof (plan_of_valid_call c env) as P. rewrite H in P.
  destruct P as [error [-> Hf]]. cbn.
  split; [reflexivity | exists error; split; [reflexivity | exact Hf]].
Qed.

Lemma valid_call_sends_once :
  forall c env,
    valid_call c = true -> exists req, requests (call_tool c) env = [req].
Proof.
  intros c env H. unfold requests. rewrite call_tool_plan.
  pose proof (plan_of_valid_call c env) as P. rewrite H in P.
  destruct P as [request [success [hint ->]]]. cbn.
  exists request. reflexivity.
Qed.

(** ** The claims *)

(** C1. Whatever the arguments and whatever happens to the request (a
    response of any status with any body, decodable or not, a connection
    failure, a timeout), each of the seven tools returns a string, a
    success string or a failure string: no exception leaves a call. *)
Theorem tool_call_returns_a_string :
  forall (c : ToolCall) (env : Env),
    exists s : ustring,
      returned (call_tool c) env = Ok s
      /\ (is_success_string s = true \/ is_failure_string s = true).
Proof.
  intros c env. unfold returned. rewrite call_tool_plan.
  pose proof (plan_of_valid_call c env) as V.
  destruct (plan c env) as [error | request success hint] eqn:P;
    cbn [run_plan fst]; eexists; (split; [reflexivity |]).
  - destruct (valid_call c).
    + destruct V as [? [? [? V]]]. discriminate.
    + destruct V as [e [V Hf]]. injection V as ->. right. exact Hf.
  - apply translate_shape.
    apply (plan_send_shape c env request success hint P).
Qed.

(** C2. When a required field of a call is blank (absent, empty or only
    whitespace), the call returns the failure string that names a blank
    required field (the first one in the order of the checks) and no
    request is sent. Every validation comes before the request: a call
    that fails any rule sends nothing and returns a failure string. *)
Theorem blank_required_field_rejected :
  forall (c : ToolCall) (env : Env) (f : Field) (v : ustring),
    In (f, v) (required_fields c) ->
    blank v = true ->
    (exists (g : Field) (w : ustring),
        find (fun fv => blank (snd fv)) (required_fields c) = Some (g, w)
        /\ returned (call_tool c) env = Ok (required_error g)
        /\ requests (call_tool c) env = []
        /\ is_failure_string (required_error g) = true
        /\ contains (field_name g) (required_error g) = true)
    /\ (forall c' env',
           valid_call c' = false ->
           requests (call_tool c') env' = []
           /\ exists error, returned (call_tool c') env' = Ok error
                            /\ is_failure_string error = true).
Proof.
  intros c env f v Hin Hv.
  split; [| intros c' env'; apply invalid_call_sends_nothing].
  unfold returned, requests. rewrite call_tool_plan.
  assert (Hname : forall g,
             is_failure_string (required_error g) = true
             /\ contains (field_name g) (required_error g) = true).
  { intros g. split; [apply required_error_failure |].
    unfold required_error. apply contains_after, contains_middle. }
  destruct c as [location severity message source timestamp | alert_id
                | alert_ids | alert_id | alert_id | alert_ids |];
    cbn [required_fields plan find snd] in *; unfold id_plan, bulk_plan.
  - destruct (blank location) eqn:B1;
      [exists Location, location; repeat split; apply Hname |].
    destruct (blank severity) eqn:B2;
      [exists Severity, severity; repeat split; apply Hname |].
    destruct (blank message) eqn:B3;
      [exists Message, message; repeat split; apply Hname |].
    destruct (blank source) eqn:B4;
      [exists Source, source; repeat split; apply Hname |].
    destruct Hin as [H | [H | [H | [H | []]]]]; injection H as <- <-;
      congruence.
  - destruct Hin as [H | []]; injection H as <- <-. rewrite Hv.
    exists AlertId, alert_id; repeat split; apply Hname.
  - destruct Hin as [H | []]; injection H as <- <-. rewrite Hv.
    exists AlertIds, alert_ids; repeat split; apply Hname.
  - destruct Hin as [H | []]; injection H as <- <-. rewrite Hv.
    exists AlertId, alert_id; repeat split; apply Hname.
  - destruct Hin as [H | []]; injection H as <- <-. rewrite Hv.
    exists AlertId, alert_id; repeat split; apply Hname.
  - destruct Hin as [H | []]; injection H as <- <-. rewrite Hv.
    exists AlertIds, alert_ids; repeat split; apply Hname.
  - destruct Hin.
Qed.

Lemma blank_required_field_rejected_witness :
  exists (g : Field) (w : ustring),
    find (fun fv => blank (snd fv))
      (required_fields
         (CreateAlert (lit "dc1") (lit "MAJOR") (lit "  ") (lit "nagios") []))
    = Some (g, w)
    /\ returned
         (call_tool
            (CreateAlert (lit "dc1") (lit "MAJOR") (lit "  ") (lit "nagios") []))
         (example_env (ok_response success_body))
       = Ok (required_error g)
    /\ requests
         (call_tool
            (CreateAlert (lit "dc1") (lit "MAJOR") (lit "  ") (lit "nagios") []))
         (example_env (ok_response success_body))
       = []
    /\ is_failure_string (required_error g) = true
    /\ contains (field_name g) (required_error g) = true.
Proof.
  apply (blank_required_field_rejected
           (CreateAlert (lit "dc1") (lit "MAJOR") (lit "  ") (lit "nagios") [])
           (example_env (ok_response success_body)) Message (lit "  ")).
  - cbn. right. right. left. reflexivity.
  - vm_compute. reflexivity.
Defined.

(** C3. The bulk tools read their argument as the specification says:
    split on commas, trim, drop the empty tokens, parse every other one.
    When a token does not parse or no token remains, the call returns a
    failure string and sends nothing; otherwise it sends one request with
    the identifiers. ["1, 2, , 3"] gives 1, 2, 3 in one request, and
    ["1,x,3"] sends nothing. *)
Theorem bulk_identifier_parsing :
  forall (op : BulkOp) (env : Env) (alert_ids : ustring),
    ints_of_tokens (split comma alert_ids) = all_ints (spec_tokens alert_ids)
    /\ match spec_ids alert_ids with
       | Some ids =>
           ids <> []
           /\ map int (spec_tokens alert_ids) = map Some ids
           /\ requests (bulk_tool op alert_ids) env = [bulk_request env op ids]
       | None =>
           ((exists t, In t (spec_tokens alert_ids) /\ int t = None)
            \/ spec_tokens alert_ids = [])
           /\ requests (bulk_tool op alert_ids) env = []
           /\ exists error,
                returned (bulk_tool op alert_ids) env = Ok error
                /\ is_failure_string error = true
       end
    /\ spec_ids (lit "1, 2, , 3") = Some [1; 2; 3]%Z
    /\ requests (acknowledge_alerts_bulk (lit "1, 2, , 3")) env
       = [bulk_request env AcknowledgeBulk [1; 2; 3]%Z]
    /\ spec_ids (lit "1,x,3") = None
    /\ requests (acknowledge_alerts_bulk (lit "1,x,3")) env = [].
Proof.
  intros op env alert_ids.
  split; [unfold spec_tokens; apply ints_of_tokens_staged |].
  split;
    [| unfold requests;
       rewrite !(proj1 (bulk_tool_plan env _));
       repeat split; vm_compute; reflexivity].
  unfold returned, requests. rewrite bulk_tool_run.
  pose proof (bulk_plan_spec env op alert_ids) as P.
  unfold spec_ids in *.
  destruct (all_ints (spec_tokens alert_ids)) as [[| id ids] |] eqn:E.
  - destruct P as [error [-> Hf]].
    split; [right | split; [reflexivity | exists error; split; auto]].
    apply all_ints_length in E. destruct (spec_tokens alert_ids);
      [reflexivity | discriminate].
  - rewrite P. split; [discriminate |].
    split; [apply all_ints_map; exact E | reflexivity].
  - destruct P as [error [-> Hf]].
    split; [left; apply all_ints_none; exact E |].
    split; [reflexivity | exists error; split; auto].
Qed.

(** C4. For a call that sends its request and gets a response: with a
    success status, a body whose status is ["success"] gives a success
    string, and any other status in the body gives the failure string
    with the body's message, or ["Unknown error"] without one; with any
    other HTTP status the failure string is made of the status code alone,
    whatever the body. *)
Theorem response_translation :
  forall (c : ToolCall) (env : Env) (req : Request) (r : Response),
    requests (call_tool c) env = [req] ->
    backend env req = Responded r ->
    if is_success r then
      forall items, json_body r = inr (JObject items) ->
        if equals_str (lookup (lit "status") items) (lit "success")
        then exists s, returned (call_tool c) env = Ok s
                       /\ is_success_string s = true
        else returned (call_tool c) env = Ok (backend_failure items)
             /\ is_failure_string (backend_failure items) = true
    else
      returned (call_tool c) env = Ok (http_failure c (status_code r))
      /\ is_failure_string (http_failure c (status_code r)) = true
      /\ contains (str_of_int (status_code r))
           (http_failure c (status_code r)) = true.
Proof.
  intros c env req r. unfold requests, returned.
  rewrite call_tool_plan.
  destruct (plan c env) as [error | request success hint] eqn:P;
    cbn [run_plan fst snd]; [discriminate |].
  intros H. injection H as ->. intros Hr.
  destruct (plan_send_shape c env req success hint P) as [-> Hs].
  unfold translate. rewrite Hr.
  destruct (is_success r).
  - intros items ->.
    destruct (equals_str (lookup (lit "status") items) (lit "success")).
    + eexists. split; [reflexivity | apply Hs].
    + split; [reflexivity | apply failure_string_cross].
  - split; [reflexivity |].
    split; [apply failure_string_cross |].
    unfold http_failure. apply contains_after, contains_middle.
Qed.

Lemma response_translation_witness :
  (returned (call_tool (CloseAlert (lit "42")))
     (example_env (ok_response success_body))
   = Ok (check ++ lit " Alert #42 closed successfully")
   /\ is_success_string (check ++ lit " Alert #42 closed successfully") = true
   /\ contains (lit "42") (check ++ lit " Alert #42 closed successfully")
      = true)
  /\ (returned (call_tool (CloseAlert (lit "42")))
        (example_env (ok_response error_body)) = Ok (backend_failure error_body)
      /\ is_failure_string (backend_failure error_body) = true)
  /\ (returned (call_tool (CloseAlert (lit "42")))
        (example_env (status_response 404 (inr (JObject error_body))))
      = Ok (http_failure (CloseAlert (lit "42")) 404)
      /\ is_failure_string (http_failure (CloseAlert (lit "42")) 404) = true
      /\ contains (str_of_int 404) (http_failure (CloseAlert (lit "42")) 404)
         = true).
Proof.
  split; [| split].
  - destruct (response_translation (CloseAlert (lit "42"))
                (example_env (ok_response success_body))
                (id_request (example_env (ok_response success_body))
                   (lit "/api/close_alert/") 42)
                {| status_code := 200; status_error := [];
                   json_body := inr (JObject success_body) |}
                eq_refl eq_refl success_body eq_refl)
      as [s [Hs Hok]].
    vm_compute in Hs. injection Hs as <-.
    split; [vm_compute; reflexivity |].
    split; [exact Hok | vm_compute; reflexivity].
  - apply (response_translation (CloseAlert (lit "42"))
             (example_env (ok_response error_body))
             (id_request (example_env (ok_response error_body))
                (lit "/api/close_alert/") 42)
             {| status_code := 200; status_error := [];
                json_body := inr (JObject error_body) |}
             eq_refl eq_refl error_body eq_refl).
  - apply (response_translation (CloseAlert (lit "42"))
             (example_env (status_response 404 (inr (JObject error_body))))
             (id_request
                (example_env (status_response 404 (inr (JObject error_body))))
                (lit "/api/close_alert/") 42)
             {| status_code := 404; status_error := [];
                json_body := inr (JObject error_body) |}
             eq_refl eq_refl).
Defined.

(** The three responses to [close_alert("42")] of the specification. *)
Example close_alert_42_success :
  returned (close_alert (lit "42")) (example_env (ok_response success_body))
  = Ok (check ++ lit " Alert #42 closed successfully")
  /\ contains (lit "42") (check ++ lit " Alert #42 closed successfully") = true.
Proof. split; vm_compute; reflexivity. Qed.

Example close_alert_42_not_found :
  returned (close_alert (lit "42")) (example_env (ok_response error_body))
  = Ok (cross ++ lit " Error: not found").
Proof. vm_compute. reflexivity. Qed.

Example close_alert_42_http_404 :
  forall body,
    returned (close_alert (lit "42")) (example_env (status_response 404 body))
    = Ok (cross ++ lit " API Error: HTTP 404 - Alert may not exist").
Proof. intros body. vm_compute. reflexivity. Qed.

(** ** Severity *)

Lemma validate_severity_iff :
  forall severity,
    validate_severity severity = true <-> In severity valid_levels.
Proof.
  intros severity. unfold validate_severity.
  rewrite existsb_exists. split.
  - intros [x [Hin Hx]]. apply ustring_eqb_eq in Hx. subst x. exact Hin.
  - intros Hin. exists severity. split; [exact Hin |].
    apply ustring_eqb_eq. reflexivity.
Qed.

Lemma valid_levels_exact :
  forall severity,
    In severity valid_levels <->
    severity = lit "CRITICAL" \/ severity = lit "MAJOR"
    \/ severity = lit "WARNING".
Proof.
  intros severity. unfold valid_levels. cbn [In].
  split; intros H; repeat destruct H as [H | H]; auto; try contradiction.
Qed.

(** A create call sends a request only when every check has passed. *)
Lemma create_alert_sends_when_valid :
  forall env location severity message source timestamp,
    requests (create_alert location severity message source timestamp) env
    <> [] ->
    blank location = false /\ blank severity = false
    /\ blank message = false /\ blank source = false
    /\ validate_severity severity = true.
Proof.
  intros env location severity message source timestamp.
  unfold requests. rewrite create_alert_plan. cbn [plan].
  destruct (blank location); [intros H; exfalso; apply H; reflexivity |].
  destruct (blank severity); [intros H; exfalso; apply H; reflexivity |].
  destruct (blank message); [intros H; exfalso; apply H; reflexivity |].
  destruct (blank source); [intros H; exfalso; apply H; reflexivity |].
  destruct (validate_severity severity);
    [| intros H; exfalso; apply H; reflexivity].
  repeat split; reflexivity.
Qed.

(** A severity outside the list: the call is rejected, with the message
    on the severity when the required fields are all there. *)
Lemma create_alert_invalid_severity :
  forall env location severity message source timestamp,
    validate_severity severity = false ->
    requests (create_alert location severity message source timestamp) env = []
    /\ (exists error,
           returned (create_alert location severity message source timestamp)
             env = Ok error
           /\ is_failure_string error = true)
    /\ (blank location = false -> blank severity = false ->
        blank message = false -> blank source = false ->
        returned (create_alert location severity message source timestamp) env
        = Ok invalid_severity_error).
Proof.
  intros env location severity message source timestamp Hv.
  unfold requests, returned. rewrite create_alert_plan. cbn [plan].
  rewrite Hv. cbn [negb].
  destruct (blank location);
    [repeat split; try discriminate; eexists; split; reflexivity |].
  destruct (blank severity);
    [repeat split; try discriminate; eexists; split; reflexivity |].
  destruct (blank message);
    [repeat split; try discriminate; eexists; split; reflexivity |].
  destruct (blank source);
    [repeat split; try discriminate; eexists; split; reflexivity |].
  repeat split; eexists; split; reflexivity.
Qed.

(** C5. A severity is accepted only when it is exactly [CRITICAL], [MAJOR]
    or [WARNING]. With any other severity the create call returns a
    failure string and sends nothing; when the required fields are not
    blank, the failure string is the one on the severity, which lists
    ["critical, major, warning"]. *)
Theorem invalid_severity_rejected :
  forall env location severity message source timestamp,
    severity <> lit "CRITICAL" ->
    severity <> lit "MAJOR" ->
    severity <> lit "WARNING" ->
    validate_severity severity = false
    /\ requests (create_alert location severity message source timestamp) env
       = []
    /\ (exists error,
           returned (create_alert location severity message source timestamp)
             env = Ok error
           /\ is_failure_string error = true)
    /\ (blank location = false -> blank severity = false ->
        blank message = false -> blank source = false ->
        returned (create_alert location severity message source timestamp) env
        = Ok invalid_severity_error)
    /\ contains (lit "critical, major, warning") invalid_severity_error = true.
Proof.
  intros env location severity message source timestamp H1 H2 H3.
  assert (Hv : validate_severity severity = false).
  { destruct (validate_severity severity) eqn:E; [| reflexivity].
    apply validate_severity_iff, valid_levels_exact in E.
    destruct E as [E | [E | E]]; contradiction. }
  split; [exact Hv |].
  destruct (create_alert_invalid_severity env location severity message source
              timestamp Hv) as [Hr [He Hm]].
  repeat split; assumption.
Qed.

Lemma invalid_severity_rejected_witness :
  (validate_severity (lit "urgent") = false
   /\ requests (create_alert (lit "dc1") (lit "urgent") (lit "disk full")
                  (lit "nagios") [])
        (example_env (ok_response success_body)) = []
   /\ returned (create_alert (lit "dc1") (lit "urgent") (lit "disk full")
                  (lit "nagios") [])
        (example_env (ok_response success_body)) = Ok invalid_severity_error)
  /\ (validate_severity (lit "critical") = false
      /\ requests (create_alert (lit "dc1") (lit "critical") (lit "disk full")
                     (lit "nagios") [])
           (example_env (ok_response success_body)) = []
      /\ returned (create_alert (lit "dc1") (lit "critical") (lit "disk full")
                     (lit "nagios") [])
           (example_env (ok_response success_body))
         = Ok invalid_severity_error).
Proof.
  split.
  - destruct (invalid_severity_rejected
                (example_env (ok_response success_body))
                (lit "dc1") (lit "urgent") (lit "disk full") (lit "nagios") [])
      as [Hv [Hr [_ [Hm _]]]]; try (vm_compute; discriminate).
    split; [exact Hv | split; [exact Hr |]].
    apply Hm; vm_compute; reflexivity.
  - destruct (invalid_severity_rejected
                (example_env (ok_response success_body))
                (lit "dc1") (lit "critical") (lit "disk full") (lit "nagios")
                [])
      as [Hv [Hr [_ [Hm _]]]]; try (vm_compute; discriminate).
    split; [exact Hv | split; [exact Hr |]].
    apply Hm; vm_compute; reflexivity.
Defined.

(** C10. A valid severity with whitespace around it passes the check for
    a required field, fails the check of the severity, which looks at the
    argument as given, and nothing is sent; so a create call sends a
    request only with a severity that is exactly one of the three. *)
Theorem padded_severity_rejected :
  forall env location severity message source timestamp,
    In (strip severity) valid_levels ->
    severity <> strip severity ->
    blank severity = false
    /\ validate_severity severity = false
    /\ requests (create_alert location severity message source timestamp) env
       = []
    /\ (blank location = false -> blank message = false ->
        blank source = false ->
        returned (create_alert location severity message source timestamp) env
        = Ok invalid_severity_error)
    /\ (forall env' location' severity' message' source' timestamp',
           requests
             (create_alert location' severity' message' source' timestamp')
             env' <> [] ->
           severity' = lit "CRITICAL" \/ severity' = lit "MAJOR"
           \/ severity' = lit "WARNING").
Proof.
  intros env location severity message source timestamp Hin Hne.
  assert (Hb : blank severity = false).
  { unfold blank. apply valid_levels_exact in Hin.
    destruct Hin as [-> | [-> | ->]]; reflexivity. }
  assert (Hv : validate_severity severity = false).
  { destruct (validate_severity severity) eqn:E; [| reflexivity].
    exfalso. apply Hne.
    apply validate_severity_iff, valid_levels_exact in E.
    destruct E as [-> | [-> | ->]]; vm_compute; reflexivity. }
  destruct (create_alert_invalid_severity env location severity message source
              timestamp Hv) as [Hr [_ Hm]].
  split; [exact Hb |]. split; [exact Hv |]. split; [exact Hr |].
  split; [intros B1 B3 B4; apply Hm; assumption |].
  intros env' location' severity' message' source' timestamp' Hs.
  apply create_alert_sends_when_valid in Hs.
  apply valid_levels_exact, validate_severity_iff, Hs.
Qed.

Lemma padded_severity_rejected_witness :
  blank (lit " CRITICAL ") = false
  /\ validate_severity (lit " CRITICAL ") = false
  /\ requests (create_alert (lit "dc1") (lit " CRITICAL ") (lit "disk full")
                 (lit "nagios") [])
       (example_env (ok_response success_body)) = []
  /\ returned (create_alert (lit "dc1") (lit " CRITICAL ") (lit "disk full")
                 (lit "nagios") [])
       (example_env (ok_response success_body)) = Ok invalid_severity_error.
Proof.
  destruct (padded_severity_rejected
              (example_env (ok_response success_body))
              (lit "dc1") (lit " CRITICAL ") (lit "disk full") (lit "nagios")
              [])
    as [Hb [Hv [Hr [Hm _]]]].
  - vm_compute. left. reflexivity.
  - vm_compute. discriminate.
  - split; [exact Hb | split; [exact Hv | split; [exact Hr |]]].
    apply Hm; vm_compute; reflexivity.
Defined.

(** ** Identifier lists *)

Lemma all_ints_members :
  forall tokens ids,
    all_ints tokens = Some ids ->
    forall z, In z ids <-> exists t, In t tokens /\ int t = Some z.
Proof.
  intros tokens ids H z.
  apply all_ints_map in H. split.
  - intros Hz.
    assert (Hs : In (Some z) (map int tokens))
      by (rewrite H; apply in_map; exact Hz).
    apply in_map_iff in Hs. destruct Hs as [t [Ht Hin]].
    exists t. split; assumption.
  - intros [t [Hin Ht]].
    assert (Hs : In (Some z) (map Some ids))
      by (rewrite <- H, <- Ht; apply in_map; exact Hin).
    apply in_map_iff in Hs. destruct Hs as [z' [Hz' Hin']].
    injection Hz' as ->. exact Hin'.
Qed.

Lemma spec_ids_some :
  forall alert_ids ids,
    spec_ids alert_ids = Some ids ->
    all_ints (spec_tokens alert_ids) = Some ids.
Proof.
  intros alert_ids ids. unfold spec_ids.
  destruct (all_ints (spec_tokens alert_ids)) as [[| id rest] |];
    intros H; (discriminate || exact H).
Qed.

Lemma bulk_requests_of_ids :
  forall op env alert_ids ids,
    spec_ids alert_ids = Some ids ->
    bulk_tool op alert_ids env
    = (Ok (translate (fun _ => bulk_success op ids) []
             (backend env (bulk_request env op ids))),
       [bulk_request env op ids]).
Proof.
  intros op env alert_ids ids H.
  rewrite bulk_tool_run.
  pose proof (bulk_plan_spec env op alert_ids) as P.
  rewrite H in P. rewrite P. reflexivity.
Qed.

(** A success string comes from the success branch only. *)
Lemma translate_success_string :
  forall success hint o,
    is_success_string (translate success hint o) = true ->
    exists items, translate success hint o = success items.
Proof.
  intros success hint o. unfold translate.
  destruct o as [r | m | m]; try (rewrite cross_not_success; discriminate).
  destruct (is_success r); [| rewrite cross_not_success; discriminate].
  destruct (json_body r) as [msg | [items | t]];
    try (rewrite cross_not_success; discriminate).
  destruct (equals_str (lookup (lit "status") items) (lit "success"));
    [| rewrite cross_not_success; discriminate].
  intros _. exists items. reflexivity.
Qed.

(** C7, as the code has it. The identifiers a bulk call forwards are
    the integers its tokens parse to, of either sign: every token that
    parses is forwarded, zero and negative numbers as well. *)
Theorem bulk_identifiers_any_sign :
  forall (op : BulkOp) (env : Env) (alert_ids : ustring) (ids : list Z),
    spec_ids alert_ids = Some ids ->
    requests (bulk_tool op alert_ids) env = [bulk_request env op ids]
    /\ (forall z, In z ids <->
                  exists t, In t (spec_tokens alert_ids) /\ int t = Some z).
Proof.
  intros op env alert_ids ids H.
  unfold requests. rewrite (bulk_requests_of_ids op env alert_ids ids H).
  split; [reflexivity |].
  apply all_ints_members, spec_ids_some, H.
Qed.

Lemma bulk_identifiers_any_sign_witness :
  requests (bulk_tool AcknowledgeBulk (lit "0, -5"))
    (example_env (ok_response success_body))
  = [bulk_request (example_env (ok_response success_body)) AcknowledgeBulk
       [0; -5]%Z]
  /\ (forall z, In z [0; -5]%Z <->
                exists t, In t (spec_tokens (lit "0, -5")) /\ int t = Some z).
Proof.
  apply (bulk_identifiers_any_sign AcknowledgeBulk
           (example_env (ok_response success_body)) (lit "0, -5")).
  vm_compute. reflexivity.
Defined.

(** C7 as stated fails: ["0"] and ["-5"] are accepted and forwarded. *)
Lemma nonpositive_identifiers_forwarded :
  requests (acknowledge_alerts_bulk (lit "0"))
    (example_env (ok_response success_body))
  = [bulk_request (example_env (ok_response success_body)) AcknowledgeBulk
       [0]%Z]
  /\ requests (close_alerts_bulk (lit "-5"))
       (example_env (ok_response success_body))
     = [bulk_request (example_env (ok_response success_body)) CloseBulk
          [-5]%Z]
  /\ ~ (0 < 0)%Z /\ ~ (0 < -5)%Z.
Proof.
  split; [vm_compute; reflexivity |].
  split; [vm_compute; reflexivity |].
  split; lia.
Qed.

(** C8, as the code has it. The identifiers stay a list, in the order
    of the tokens and one for each token, repeats included; that list is
    forwarded, and the count in the success string is its length. *)
Theorem bulk_identifiers_keep_duplicates :
  forall (op : BulkOp) (env : Env) (alert_ids : ustring) (ids : list Z),
    spec_ids alert_ids = Some ids ->
    map int (spec_tokens alert_ids) = map Some ids
    /\ List.length ids = List.length (spec_tokens alert_ids)
    /\ requests (bulk_tool op alert_ids) env = [bulk_request env op ids]
    /\ (forall s,
           returned (bulk_tool op alert_ids) env = Ok s ->
           is_success_string s = true ->
           s = check ++ lit " " ++ str_of_int (Z.of_nat (List.length ids))
               ++ lit " alerts " ++ bulk_verb op ++ lit " successfully: "
               ++ str_of_int_list ids).
Proof.
  intros op env alert_ids ids H.
  pose proof (spec_ids_some alert_ids ids H) as A.
  split; [apply all_ints_map; exact A |].
  split; [apply all_ints_length; exact A |].
  unfold requests, returned.
  rewrite (bulk_requests_of_ids op env alert_ids ids H). cbn [fst snd].
  split; [reflexivity |].
  intros s Hs Hok. injection Hs as <-.
  destruct (translate_success_string _ _ _ Hok) as [items ->].
  reflexivity.
Qed.

Lemma bulk_identifiers_keep_duplicates_witness :
  map int (spec_tokens (lit "2,1,2")) = map Some [2; 1; 2]%Z
  /\ List.length [2; 1; 2]%Z = List.length (spec_tokens (lit "2,1,2"))
  /\ requests (bulk_tool AcknowledgeBulk (lit "2,1,2"))
       (example_env (ok_response success_body))
     = [bulk_request (example_env (ok_response success_body)) AcknowledgeBulk
          [2; 1; 2]%Z]
  /\ (forall s,
         returned (bulk_tool AcknowledgeBulk (lit "2,1,2"))
           (example_env (ok_response success_body)) = Ok s ->
         is_success_string s = true ->
         s = check ++ lit " "
             ++ str_of_int (Z.of_nat (List.length [2; 1; 2]%Z))
             ++ lit " alerts " ++ bulk_verb AcknowledgeBulk
             ++ lit " successfully: " ++ str_of_int_list [2; 1; 2]%Z).
Proof.
  apply (bulk_identifiers_keep_duplicates AcknowledgeBulk
           (example_env (ok_response success_body)) (lit "2,1,2")).
  vm_compute. reflexivity.
Defined.

(** C8 as stated fails: for ["2,1,2"] the identifier 2 is forwarded
    twice, and the success string counts 3, while two identifiers are
    distinct. *)
Lemma duplicate_identifiers_forwarded :
  requests (acknowledge_alerts_bulk (lit "2,1,2"))
    (example_env (ok_response success_body))
  = [bulk_request (example_env (ok_response success_body)) AcknowledgeBulk
       [2; 1; 2]%Z]
  /\ returned (acknowledge_alerts_bulk (lit "2,1,2"))
       (example_env (ok_response success_body))
     = Ok (check ++ lit " 3 alerts acknowledged successfully: [2, 1, 2]")
  /\ count_occ Z.eq_dec [2; 1; 2]%Z 2%Z = 2%nat
  /\ List.length (nodup Z.eq_dec [2; 1; 2]%Z) = 2%nat.
Proof.
  repeat split; vm_compute; reflexivity.
Qed.

(** ** Create: what is sent and what is echoed *)

Lemma create_alert_valid_run :
  forall env location severity message source timestamp,
    blank location = false -> blank severity = false ->
    blank message = false -> blank source = false ->
    validate_severity severity = true ->
    create_alert location severity message source timestamp env
    = (Ok (translate
             (fun _ => created_string location severity message source
                         (timestamp_of env timestamp))
             []
             (backend env
                (create_request env (strip location) (strip severity)
                   (strip message) (strip source)
                   (timestamp_of env timestamp)))),
       [create_request env (strip location) (strip severity) (strip message)
          (strip source) (timestamp_of env timestamp)]).
Proof.
  intros env location severity message source timestamp B1 B2 B3 B4 Hv.
  rewrite create_alert_plan. cbn [plan].
  rewrite B1, B2, B3, B4, Hv. reflexivity.
Qed.

(** A create call that returns a success string passed every check. *)
Lemma create_alert_success_valid :
  forall env location severity message source timestamp s,
    returned (create_alert location severity message source timestamp) env
    = Ok s ->
    is_success_string s = true ->
    blank location = false /\ blank severity = false
    /\ blank message = false /\ blank source = false
    /\ validate_severity severity = true.
Proof.
  intros env location severity message source timestamp s.
  unfold returned. rewrite create_alert_plan. cbn [plan].
  destruct (blank location);
    [intros H; injection H as <-; discriminate |].
  destruct (blank severity);
    [intros H; injection H as <-; discriminate |].
  destruct (blank message);
    [intros H; injection H as <-; discriminate |].
  destruct (blank source);
    [intros H; injection H as <-; discriminate |].
  destruct (validate_severity severity);
    [| intros H; injection H as <-; discriminate].
  repeat split; reflexivity.
Qed.

(** C9. When a create call succeeds, the request body has the stripped
    location, severity, message and source, and the confirmation echoes
    the four arguments as the caller gave them; so an argument with
    whitespace at its start or end is echoed differently from what was
    sent. *)
Theorem create_alert_sends_stripped_echoes_original :
  forall env location severity message source timestamp s,
    returned (create_alert location severity message source timestamp) env
    = Ok s ->
    is_success_string s = true ->
    requests (create_alert location severity message source timestamp) env
    = [create_request env (strip location) (strip severity) (strip message)
         (strip source) (timestamp_of env timestamp)]
    /\ s = created_string location severity message source
             (timestamp_of env timestamp)
    /\ (forall a, In a [location; severity; message; source] ->
                  outer_whitespace a = true -> a <> strip a).
Proof.
  intros env location severity message source timestamp s Hr Hok.
  destruct (create_alert_success_valid env location severity message source
              timestamp s Hr Hok) as [B1 [B2 [B3 [B4 Hv]]]].
  unfold requests, returned in *.
  rewrite (create_alert_valid_run env location severity message source
             timestamp B1 B2 B3 B4 Hv) in *.
  cbn [fst snd] in *. injection Hr as <-.
  split; [reflexivity |].
  split.
  - destruct (translate_success_string _ _ _ Hok) as [items ->]. reflexivity.
  - intros a _ Hw E. symmetry in E. revert E.
    apply outer_whitespace_changes. exact Hw.
Qed.

Lemma create_alert_sends_stripped_echoes_original_witness :
  returned (create_alert (lit " dc1") (lit "MAJOR") (lit "disk full ")
              (lit "nagios") (lit "2024-01-01T00:00:00+00:00"))
    (example_env (ok_response success_body))
  = Ok (created_string (lit " dc1") (lit "MAJOR") (lit "disk full ")
          (lit "nagios") (lit "2024-01-01T00:00:00+00:00"))
  /\ requests (create_alert (lit " dc1") (lit "MAJOR") (lit "disk full ")
                 (lit "nagios") (lit "2024-01-01T00:00:00+00:00"))
       (example_env (ok_response success_body))
     = [create_request (example_env (ok_response success_body))
          (lit "dc1") (lit "MAJOR") (lit "disk full") (lit "nagios")
          (lit "2024-01-01T00:00:00+00:00")]
  /\ lit " dc1" <> strip (lit " dc1")
  /\ lit "disk full " <> strip (lit "disk full ").
Proof.
  assert (R : returned
                (create_alert (lit " dc1") (lit "MAJOR") (lit "disk full ")
                   (lit "nagios") (lit "2024-01-01T00:00:00+00:00"))
                (example_env (ok_response success_body))
              = Ok (created_string (lit " dc1") (lit "MAJOR")
                      (lit "disk full ") (lit "nagios")
                      (lit "2024-01-01T00:00:00+00:00")))
    by (vm_compute; reflexivity).
  destruct (create_alert_sends_stripped_echoes_original
              (example_env (ok_response success_body))
              (lit " dc1") (lit "MAJOR") (lit "disk full ") (lit "nagios")
              (lit "2024-01-01T00:00:00+00:00") _ R)
    as [Hq [_ Hw]].
  - vm_compute. reflexivity.
  - split; [exact R | split; [exact Hq | split]].
    + apply Hw; [cbn; tauto | vm_compute; reflexivity].
    + apply Hw; [cbn; tauto | vm_compute; reflexivity].
Defined.

(** ** Timestamps *)

Lemma is_digit_char :
  forall d, (d < 10)%N -> is_digit (digit_char d) = true.
Proof.
  intros d H. unfold is_digit, digit_char.
  apply andb_true_iff. split; apply N.leb_le; lia.
Qed.

Lemma dec_digits_are_digits :
  forall fuel n, Forall (fun c => is_digit c = true) (dec_digits fuel n).
Proof.
  induction fuel as [| fuel IH]; intros n; cbn [dec_digits].
  - constructor.
  - destruct (N.ltb_spec n 10) as [H | H].
    + constructor; [apply is_digit_char; exact H | constructor].
    + apply Forall_app. split; [apply IH |].
      constructor; [| constructor].
      apply is_digit_char. apply N.mod_lt. discriminate.
Qed.

Lemma dec_digits_length :
  forall fuel n w,
    (n < 10 ^ N.of_nat w)%N -> (1 <= w)%nat ->
    (List.length (dec_digits fuel n) <= w)%nat.
Proof.
  induction fuel as [| fuel IH]; intros n w Hn Hw; cbn [dec_digits].
  - cbn. lia.
  - destruct (N.ltb_spec n 10) as [H | H]; [cbn; lia |].
    rewrite length_app. cbn [List.length].
    destruct w as [| w]; [lia |].
    rewrite Nat2N.inj_succ, N.pow_succ_r' in Hn.
    destruct w as [| w]; [cbn in Hn; lia |].
    assert (Hq : (n / 10 < 10 ^ N.of_nat (S w))%N)
      by (apply N.Div0.div_lt_upper_bound; exact Hn).
    specialize (IH (n / 10)%N (S w) Hq). lia.
Qed.

Lemma eat_digits_app :
  forall l rest,
    Forall (fun c => is_digit c = true) l ->
    eat_digits (List.length l) (l ++ rest) = Some rest.
Proof.
  induction l as [| c l IH]; intros rest H; cbn; [reflexivity |].
  inversion H as [| ? ? Hc Hl]; subst. rewrite Hc. apply IH. exact Hl.
Qed.

Lemma eat_app :
  forall p rest, eat p (p ++ rest) = Some rest.
Proof.
  induction p as [| a p IH]; intros rest; cbn; [reflexivity |].
  rewrite N.eqb_refl. apply IH.
Qed.

(** A number below [10 ^ w] is printed by ["%0<w>d"] as exactly [w]
    digits. *)
Lemma eat_zero_padded :
  forall w n rest,
    (n < 10 ^ N.of_nat w)%N -> (1 <= w)%nat ->
    eat_digits w (zero_padded w n ++ rest) = Some rest.
Proof.
  intros w n rest Hn Hw.
  assert (L : List.length (zero_padded w n) = w).
  { unfold zero_padded. rewrite length_app, repeat_length.
    pose proof (dec_digits_length (S (N.to_nat (N.log2 n))) n w Hn Hw) as H.
    unfold str_of_N. lia. }
  rewrite <- L at 1. apply eat_digits_app.
  unfold zero_padded. apply Forall_app. split.
  - apply Forall_forall. intros c Hc. apply repeat_spec in Hc. subst c.
    reflexivity.
  - apply dec_digits_are_digits.
Qed.

Lemma isoformat_is_iso8601_utc :
  forall d, valid_datetime d -> iso8601_utc (isoformat d) = true.
Proof.
  intros d (Hy & Hm & Hd & Hh & Hmi & Hs & Hu).
  unfold iso8601_utc, isoformat.
  rewrite (eat_zero_padded 4); [| cbn; lia | lia]. cbn [and_then].
  rewrite eat_app. cbn [and_then].
  rewrite (eat_zero_padded 2); [| cbn; lia | lia]. cbn [and_then].
  rewrite eat_app. cbn [and_then].
  rewrite (eat_zero_padded 2); [| cbn; lia | lia]. cbn [and_then].
  rewrite eat_app. cbn [and_then].
  rewrite (eat_zero_padded 2); [| cbn; lia | lia]. cbn [and_then].
  rewrite eat_app. cbn [and_then].
  rewrite (eat_zero_padded 2); [| cbn; lia | lia]. cbn [and_then].
  rewrite eat_app. cbn [and_then].
  rewrite (eat_zero_padded 2); [| cbn; lia | lia]. cbn [and_then].
  destruct (microsecond d =? 0)%N.
  - reflexivity.
  - unfold eat_fraction. rewrite <- app_assoc, eat_app.
    rewrite (eat_zero_padded 6); [| cbn; lia | lia].
    reflexivity.
Qed.

(** C6, as the code has it. A create call that passes validation
    sends one timestamp in the request body and echoes the same one in
    the success string: for a blank argument it is the clock reading in
    ISO 8601 with the offset [+00:00], and for any other argument it is
    the argument with the whitespace around it stripped. *)
Theorem create_alert_timestamp :
  forall env location severity message source timestamp,
    blank location = false -> blank severity = false ->
    blank message = false -> blank source = false ->
    validate_severity severity = true ->
    valid_datetime (utcnow env) ->
    requests (create_alert location severity message source timestamp) env
    = [create_request env (strip location) (strip severity) (strip message)
         (strip source) (timestamp_of env timestamp)]
    /\ (forall s,
           returned (create_alert location severity message source timestamp)
             env = Ok s ->
           is_success_string s = true ->
           s = created_string location severity message source
                 (timestamp_of env timestamp))
    /\ (blank timestamp = true ->
        timestamp_of env timestamp = isoformat (utcnow env)
        /\ iso8601_utc (timestamp_of env timestamp) = true)
    /\ (blank timestamp = false -> timestamp_of env timestamp = strip timestamp).
Proof.
  intros env location severity message source timestamp B1 B2 B3 B4 Hv Hd.
  unfold requests, returned.
  rewrite (create_alert_valid_run env location severity message source
             timestamp B1 B2 B3 B4 Hv).
  cbn [fst snd].
  split; [reflexivity |].
  split.
  - intros s Hs Hok. injection Hs as <-.
    destruct (translate_success_string _ _ _ Hok) as [items ->]. reflexivity.
  - unfold timestamp_of. split; intros ->; [| reflexivity].
    split; [reflexivity | apply isoformat_is_iso8601_utc; exact Hd].
Qed.

Lemma create_alert_timestamp_witness :
  requests (create_alert (lit "dc1") (lit "MAJOR") (lit "disk full")
              (lit "nagios") (lit "  "))
    (example_env (ok_response success_body))
  = [create_request (example_env (ok_response success_body))
       (lit "dc1") (lit "MAJOR") (lit "disk full") (lit "nagios")
       (lit "2024-01-02T03:04:05.000007+00:00")]
  /\ returned (create_alert (lit "dc1") (lit "MAJOR") (lit "disk full")
                 (lit "nagios") (lit "  "))
       (example_env (ok_response success_body))
     = Ok (created_string (lit "dc1") (lit "MAJOR") (lit "disk full")
             (lit "nagios") (lit "2024-01-02T03:04:05.000007+00:00"))
  /\ iso8601_utc (lit "2024-01-02T03:04:05.000007+00:00") = true.
Proof.
  destruct (create_alert_timestamp
              (example_env (ok_response success_body))
              (lit "dc1") (lit "MAJOR") (lit "disk full") (lit "nagios")
              (lit "  "))
    as [Hq [Hs [Hb _]]]; try (vm_compute; reflexivity).
  - vm_compute. repeat split; discriminate.
  - split; [exact Hq | split].
    + vm_compute. reflexivity.
    + apply (Hb eq_refl).
Defined.

(** C6 as stated fails for a timestamp with whitespace around it: what
    is sent and echoed is the stripped string, not the one supplied. *)
Lemma supplied_timestamp_is_stripped :
  blank (lit " 2024-01-01T00:00:00+00:00 ") = false
  /\ requests (create_alert (lit "dc1") (lit "MAJOR") (lit "disk full")
                 (lit "nagios") (lit " 2024-01-01T00:00:00+00:00 "))
       (example_env (ok_response success_body))
     = [create_request (example_env (ok_response success_body))
          (lit "dc1") (lit "MAJOR") (lit "disk full") (lit "nagios")
          (lit "2024-01-01T00:00:00+00:00")]
  /\ returned (create_alert (lit "dc1") (lit "MAJOR") (lit "disk full")
                 (lit "nagios") (lit " 2024-01-01T00:00:00+00:00 "))
       (example_env (ok_response success_body))
     = Ok (created_string (lit "dc1") (lit "MAJOR") (lit "disk full")
             (lit "nagios") (lit "2024-01-01T00:00:00+00:00"))
  /\ lit "2024-01-01T00:00:00+00:00" <> lit " 2024-01-01T00:00:00+00:00 ".
Proof.
  split; [vm_compute; reflexivity |].
  split; [vm_compute; reflexivity |].
  split; [vm_compute; reflexivity |].
  vm_compute. discriminate.
Qed.

(** * Further properties of the tools *)

(** ** Requests *)

(** X1. A call sends one request when it passes validation and none
    otherwise, whatever comes back: a failed request is not sent again. *)
Theorem one_request_per_call :
  forall (c : ToolCall) (env : Env),
    (List.length (requests (call_tool c) env) <= 1)%nat
    /\ (List.length (requests (call_tool c) env) = 1%nat
        <-> valid_call c = true).
Proof.
  intros c env. unfold requests. rewrite call_tool_plan.
  pose proof (plan_of_valid_call c env) as P.
  destruct (valid_call c).
  - destruct P as [request [success [hint ->]]]. cbn.
    split; [lia | split; reflexivity].
  - destruct P as [error [-> _]]. cbn.
    split; [lia | split; discriminate].
Qed.

Lemma plan_request_shape :
  forall c env request success hint,
    plan c env = Send request success hint ->
    req_timeout request = 10%Z
    /\ req_method request = method_of c
    /\ (exists path,
           req_url request = (ALERTHARVEST_URL env ++ lit "/api/") ++ path)
    /\ (req_json request <> None <-> has_body c = true).
Proof.
  intros c env request success hint.
  assert (Hb : forall A (x : A), Some x <> None <-> true = true)
    by (intros; split; [reflexivity | discriminate]).
  assert (Hn : forall A, @None A <> None <-> false = true)
    by (intros; split; [intros H; exfalso; apply H; reflexivity
                       | discriminate]).
  destruct c as [location severity message source timestamp | alert_id
                | alert_ids | alert_id | alert_id | alert_ids |];
    cbn [plan method_of has_body]; unfold id_plan, bulk_plan.
  - destruct (blank location); [discriminate |].
    destruct (blank severity); [discriminate |].
    destruct (blank message); [discriminate |].
    destruct (blank source); [discriminate |].
    destruct (negb (validate_severity severity)); [discriminate |].
    intros H. injection H as <- _ _. cbn.
    repeat split; try apply Hb.
    exists (lit "create_alert/"). rewrite <- app_assoc. reflexivity.
  - destruct (blank alert_id); [discriminate |].
    destruct (int (strip alert_id)) as [n |]; [| discriminate].
    intros H. injection H as <- _ _. cbn.
    repeat split; try apply Hn.
    exists (lit "acknowledge_alert/" ++ str_of_int n).
    rewrite <- app_assoc. reflexivity.
  - destruct (blank alert_ids); [discriminate |].
    destruct (ints_of_tokens (split comma alert_ids)) as [[| id ids] |];
      try discriminate.
    intros H. injection H as <- _ _. cbn.
    repeat split; try apply Hb.
    exists (lit "acknowledge_alerts_bulk/"). rewrite <- app_assoc.
    reflexivity.
  - destruct (blank alert_id); [discriminate |].
    destruct (int (strip alert_id)) as [n |]; [| discriminate].
    intros H. injection H as <- _ _. cbn.
    repeat split; try apply Hn.
    exists (lit "unacknowledge_alert/" ++ str_of_int n).
    rewrite <- app_assoc. reflexivity.
  - destruct (blank alert_id); [discriminate |].
    destruct (int (strip alert_id)) as [n |]; [| discriminate].
    intros H. injection H as <- _ _. cbn.
    repeat split; try apply Hn.
    exists (lit "close_alert/" ++ str_of_int n).
    rewrite <- app_assoc. reflexivity.
  - destruct (blank alert_ids); [discriminate |].
    destruct (ints_of_tokens (split comma alert_ids)) as [[| id ids] |];
      try discriminate.
    intros H. injection H as <- _ _. cbn.
    repeat split; try apply Hb.
    exists (lit "close_alerts_bulk/"). rewrite <- app_assoc. reflexivity.
  - intros H. injection H as <- _ _. cbn.
    repeat split; try apply Hn.
    exists (lit "close_expired_alerts/"). rewrite <- app_assoc. reflexivity.
Qed.

(** X2. Every request a tool sends has the timeout 10 and goes to a path
    under [/api/] of the configured URL; it is a POST for create and a PUT
    for the other tools, and it has a JSON body for create and the bulk
    tools only. *)
Theorem request_shape :
  forall (c : ToolCall) (env : Env) (req : Request),
    In req (requests (call_tool c) env) ->
    req_timeout req = 10%Z
    /\ req_method req = method_of c
    /\ (exists path,
           req_url req = (ALERTHARVEST_URL env ++ lit "/api/") ++ path)
    /\ starts_with (ALERTHARVEST_URL env) (req_url req) = true
    /\ (req_json req <> None <-> has_body c = true).
Proof.
  intros c env req. unfold requests. rewrite call_tool_plan.
  destruct (plan c env) as [error | request success hint] eqn:P;
    cbn [run_plan snd]; [intros [] |].
  intros [<- | []].
  destruct (plan_request_shape c env request success hint P)
    as [Ht [Hm [[path Hu] Hj]]].
  split; [exact Ht |]. split; [exact Hm |].
  split; [exists path; exact Hu |].
  split; [| exact Hj].
  rewrite Hu, <- app_assoc. apply starts_with_app.
Qed.

Lemma request_shape_witness :
  req_timeout
    (bulk_request (example_env (ok_response success_body)) CloseBulk [7]%Z)
  = 10%Z
  /\ req_method
       (bulk_request (example_env (ok_response success_body)) CloseBulk [7]%Z)
     = PUT
  /\ (exists path,
         req_url
           (bulk_request (example_env (ok_response success_body)) CloseBulk
              [7]%Z)
         = (lit "http://127.0.0.1:8000" ++ lit "/api/") ++ path)
  /\ starts_with (lit "http://127.0.0.1:8000")
       (req_url
          (bulk_request (example_env (ok_response success_body)) CloseBulk
             [7]%Z)) = true
  /\ (req_json
        (bulk_request (example_env (ok_response success_body)) CloseBulk
           [7]%Z) <> None <-> true = true).
Proof.
  apply (request_shape (CloseAlertsBulk (lit "7"))
           (example_env (ok_response success_body))).
  vm_compute. left. reflexivity.
Defined.

(** ** Identifiers *)

Lemma id_call_plan :
  forall op env alert_id,
    plan (id_call op alert_id) env
    = id_plan env alert_id (id_path op)
        match op with
        | AcknowledgeOne => lit " acknowledged successfully"
        | UnacknowledgeOne => lit " unacknowledged successfully"
        | CloseOne => lit " closed successfully"
        end.
Proof. intros [] env alert_id; reflexivity. Qed.

(** X3. An identifier that is not blank and that [int] does not accept
    is refused by acknowledge, unacknowledge and close with the string
    that shows the argument as it was given, and nothing is sent. *)
Theorem non_numeric_identifier_rejected :
  forall (op : IdOp) (env : Env) (alert_id : ustring),
    blank alert_id = false ->
    int (strip alert_id) = None ->
    returned (call_tool (id_call op alert_id)) env = Ok (not_a_number alert_id)
    /\ requests (call_tool (id_call op alert_id)) env = []
    /\ is_failure_string (not_a_number alert_id) = true
    /\ contains alert_id (not_a_number alert_id) = true.
Proof.
  intros op env alert_id Hb Hi.
  unfold returned, requests. rewrite call_tool_plan, id_call_plan.
  unfold id_plan. rewrite Hb, Hi. cbn [run_plan fst snd].
  split; [reflexivity |]. split; [reflexivity |].
  split; [apply failure_string_cross |].
  unfold not_a_number. apply contains_after, contains_after.
  rewrite <- (app_nil_r alert_id) at 2. apply contains_here.
Qed.

Lemma non_numeric_identifier_rejected_witness :
  returned (call_tool (id_call AcknowledgeOne (lit " abc ")))
    (example_env (ok_response success_body))
  = Ok (not_a_number (lit " abc "))
  /\ requests (call_tool (id_call AcknowledgeOne (lit " abc ")))
       (example_env (ok_response success_body)) = []
  /\ is_failure_string (not_a_number (lit " abc ")) = true
  /\ contains (lit " abc ") (not_a_number (lit " abc ")) = true.
Proof.
  apply (non_numeric_identifier_rejected AcknowledgeOne
           (example_env (ok_response success_body)) (lit " abc "));
    vm_compute; reflexivity.
Defined.

(** ** Failures of the request and of the body *)

Lemma sent_request_run :
  forall c env req,
    requests (call_tool c) env = [req] ->
    exists success,
      returned (call_tool c) env
      = Ok (translate success (http_hint c) (backend env req)).
Proof.
  intros c env req. unfold requests, returned. rewrite call_tool_plan.
  destruct (plan c env) as [error | request success hint] eqn:P;
    cbn [run_plan fst snd]; [discriminate |].
  intros H. injection H as ->.
  destruct (plan_send_shape c env req success hint P) as [-> _].
  exists success. reflexivity.
Qed.

(** X5. When the request of a call fails to connect or times out, the
    call returns the failure string with the description of that error. *)
Theorem transport_failure_reported :
  forall (c : ToolCall) (env : Env) (req : Request) (msg : ustring),
    requests (call_tool c) env = [req] ->
    backend env req = ConnectFailed msg \/ backend env req = TimedOut msg ->
    returned (call_tool c) env = Ok (cross ++ lit " Error: " ++ msg).
Proof.
  intros c env req msg Hs Hb.
  destruct (sent_request_run c env req Hs) as [success ->].
  destruct Hb as [-> | ->]; reflexivity.
Qed.

Lemma transport_failure_reported_witness :
  returned (call_tool CloseExpiredAlerts)
    (example_env (ConnectFailed (lit "All connection attempts failed")))
  = Ok (cross ++ lit " Error: " ++ lit "All connection attempts failed").
Proof.
  apply (transport_failure_reported CloseExpiredAlerts
           (example_env (ConnectFailed (lit "All connection attempts failed")))
           (expired_request
              (example_env
                 (ConnectFailed (lit "All connection attempts failed"))))).
  - vm_compute. reflexivity.
  - left. reflexivity.
Defined.

(** X6. When the response has a success status and its body does not
    decode, the call returns the failure string with the decoder's message;
    when the body decodes to something that is not a dict, the failure
    string says that the value has no attribute [get]. *)
Theorem unreadable_body_reported :
  forall (c : ToolCall) (env : Env) (req : Request) (r : Response),
    requests (call_tool c) env = [req] ->
    backend env req = Responded r ->
    is_success r = true ->
    (forall msg,
        json_body r = inl msg ->
        returned (call_tool c) env = Ok (cross ++ lit " Error: " ++ msg))
    /\ (forall type_name,
           json_body r = inr (JNonObject type_name) ->
           returned (call_tool c) env
           = Ok (cross ++ lit " Error: '" ++ type_name
                 ++ lit "' object has no attribute 'get'")).
Proof.
  intros c env req r Hs Hb Hok.
  destruct (sent_request_run c env req Hs) as [success ->].
  unfold translate. rewrite Hb, Hok.
  split; [intros msg -> | intros type_name ->]; reflexivity.
Qed.

Lemma unreadable_body_reported_witness :
  returned (call_tool (CloseAlert (lit "42")))
    (example_env (status_response 200 (inl (lit "Expecting value"))))
  = Ok (cross ++ lit " Error: " ++ lit "Expecting value")
  /\ returned (call_tool (CloseAlert (lit "42")))
       (example_env (status_response 200 (inr (JNonObject (lit "list")))))
     = Ok (cross ++ lit " Error: '" ++ lit "list"
           ++ lit "' object has no attribute 'get'").
Proof.
  split.
  - apply (unreadable_body_reported (CloseAlert (lit "42"))
             (example_env (status_response 200 (inl (lit "Expecting value"))))
             (id_request
                (example_env
                   (status_response 200 (inl (lit "Expecting value"))))
                (lit "/api/close_alert/") 42)
             {| status_code := 200; status_error := [];
                json_body := inl (lit "Expecting value") |}
             eq_refl eq_refl eq_refl).
    reflexivity.
  - apply (unreadable_body_reported (CloseAlert (lit "42"))
             (example_env
                (status_response 200 (inr (JNonObject (lit "list")))))
             (id_request
                (example_env
                   (status_response 200 (inr (JNonObject (lit "list")))))
                (lit "/api/close_alert/") 42)
             {| status_code := 200; status_error := [];
                json_body := inr (JNonObject (lit "list")) |}
             eq_refl eq_refl eq_refl).
    reflexivity.
Defined.

(** ** Expired alerts *)



(** ** The failure strings of the bulk tools *)

(** X8. A bulk argument that is not blank is refused with ["All alert
    IDs must be numbers"] when one of its trimmed, non-empty tokens does
    not parse, wherever that token stands, and with ["No valid alert IDs
    provided"] when it has no such token at all (only commas and
    whitespace). *)
Theorem bulk_failure_strings :
  forall (op : BulkOp) (env : Env) (alert_ids : ustring),
    blank alert_ids = false ->
    ((exists t, In t (spec_tokens alert_ids) /\ int t = None) ->
     returned (bulk_tool op alert_ids) env
     = Ok (cross ++ lit " Error: All alert IDs must be numbers"))
    /\ (spec_tokens alert_ids = [] ->
        returned (bulk_tool op alert_ids) env
        = Ok (cross ++ lit " Error: No valid alert IDs provided"))
    /\ ((exists t, In t (spec_tokens alert_ids) /\ int t = None)
        \/ spec_tokens alert_ids = [] ->
        requests (bulk_tool op alert_ids) env = []).
Proof.
  intros op env alert_ids Hb.
  unfold returned, requests. rewrite bulk_tool_run.
  unfold bulk_plan. rewrite Hb, ints_of_tokens_staged.
  fold (spec_tokens alert_ids).
  split; [| split].
  - intros Ht. apply all_ints_none in Ht. rewrite Ht. reflexivity.
  - intros ->. reflexivity.
  - intros [Ht | ->]; [| reflexivity].
    apply all_ints_none in Ht. rewrite Ht. reflexivity.
Qed.

Lemma bulk_failure_strings_witness :
  returned (bulk_tool AcknowledgeBulk (lit "1, 2,x"))
    (example_env (ok_response success_body))
  = Ok (cross ++ lit " Error: All alert IDs must be numbers")
  /\ returned (bulk_tool CloseBulk (lit " , ,"))
       (example_env (ok_response success_body))
     = Ok (cross ++ lit " Error: No valid alert IDs provided").
Proof.
  split.
  - apply (bulk_failure_strings AcknowledgeBulk
             (example_env (ok_response success_body)) (lit "1, 2,x")).
    + vm_compute. reflexivity.
    + exists (lit "x"). split; [vm_compute; tauto | vm_compute; reflexivity].
  - apply (bulk_failure_strings CloseBulk
             (example_env (ok_response success_body)) (lit " , ,")).
    + vm_compute. reflexivity.
    + vm_compute. reflexivity.
Defined.

(** ** What stripping leaves *)

Section Stripped.

Variable sp : N -> bool.

Lemma lstrip_by_suffix :
  forall s, exists p, s = p ++ lstrip_by sp s.
Proof.
  induction s as [| c r [p IH]]; cbn.
  - exists []. reflexivity.
  - destruct (sp c).
    + exists (c :: p). cbn. rewrite <- IH. reflexivity.
    + exists []. reflexivity.
Qed.

Lemma rev_cons_last :
  forall (c : N) r, exists t, rev (c :: r) = last r c :: t.
Proof.
  intros c r.
  destruct (@exists_last _ (c :: r)) as [t [a Ht]]; [discriminate |].
  assert (La : last (c :: r) c = a) by (rewrite Ht; apply last_last).
  assert (Lc : last (c :: r) c = last r c) by (destruct r; reflexivity).
  exists (rev t). rewrite Ht, rev_app_distr. cbn. congruence.
Qed.

(** A stripped string neither starts nor ends with a stripped character. *)
Lemma strip_by_clean :
  forall s c r,
    strip_by sp s = c :: r -> sp c = false /\ sp (last r c) = false.
Proof.
  intros s c r H. unfold strip_by in H.
  apply (f_equal (@rev N)) in H. rewrite rev_involutive in H.
  split.
  - destruct (lstrip_by_suffix (rev (lstrip_by sp s))) as [p Hp].
    rewrite H in Hp.
    apply (f_equal (@rev N)) in Hp.
    rewrite rev_involutive, rev_app_distr, rev_involutive in Hp.
    cbn in Hp. apply (lstrip_by_head sp s c (r ++ rev p)). exact Hp.
  - destruct (rev_cons_last c r) as [t Ht]. rewrite Ht in H.
    apply (lstrip_by_head sp _ _ _ H).
Qed.

Lemma strip_by_fixed :
  forall c r,
    sp c = false -> sp (last r c) = false -> strip_by sp (c :: r) = c :: r.
Proof.
  intros c r Hc Hl. unfold strip_by.
  assert (E : lstrip_by sp (c :: r) = c :: r) by (cbn; rewrite Hc; reflexivity).
  rewrite E.
  destruct (rev_cons_last c r) as [t Ht].
  assert (E' : lstrip_by sp (rev (c :: r)) = rev (c :: r))
    by (rewrite Ht; cbn; rewrite Hl; reflexivity).
  rewrite E'. apply rev_involutive.
Qed.

Lemma strip_by_idempotent :
  forall s, strip_by sp (strip_by sp s) = strip_by sp s.
Proof.
  intros s. destruct (strip_by sp s) as [| c r] eqn:E; [reflexivity |].
  destruct (strip_by_clean s c r E) as [Hc Hl].
  apply strip_by_fixed; assumption.
Qed.

End Stripped.

Lemma strip_idempotent : forall s, strip (strip s) = strip s.
Proof. intros s. apply strip_by_idempotent. Qed.

Lemma blank_strip : forall s, blank (strip s) = blank s.
Proof. intros s. unfold blank. rewrite strip_idempotent. reflexivity. Qed.

Lemma strip_trimmed :
  forall s, blank s = false ->
    strip s <> [] /\ outer_whitespace (strip s) = false.
Proof.
  intros s Hb. unfold blank in Hb.
  destruct (strip s) as [| c r] eqn:E; [discriminate |].
  split; [discriminate |].
  destruct (strip_by_clean isspace s c r E) as [Hc Hl].
  cbn. rewrite Hc, Hl. reflexivity.
Qed.

(** The clock reading in ISO format starts with a digit and ends with
    one. *)
Lemma dec_digits_nonempty :
  forall fuel n, dec_digits (S fuel) n <> [].
Proof.
  intros fuel n. cbn [dec_digits].
  destruct (n <? 10)%N; [discriminate |].
  intros H. apply app_eq_nil in H. destruct H as [_ H]. discriminate.
Qed.

Lemma is_digit_not_space :
  forall c, is_digit c = true -> isspace c = false.
Proof.
  intros c H. unfold is_digit in H.
  apply andb_true_iff in H. destruct H as [H1 H2].
  apply N.leb_le in H1. apply N.leb_le in H2.
  unfold isspace.
  repeat (apply orb_false_iff; split);
    try (apply andb_false_iff);
    try (apply N.eqb_neq; lia);
    try (left; apply N.leb_gt; lia);
    try (right; apply N.leb_gt; lia).
Qed.

Lemma zero_padded_head :
  forall w n,
    exists c r, zero_padded w n = c :: r /\ is_digit c = true.
Proof.
  intros w n. unfold zero_padded.
  assert (D : Forall (fun c => is_digit c = true)
                (repeat (digit_char 0) (w - List.length (str_of_N n))
                 ++ str_of_N n)).
  { apply Forall_app. split.
    - apply Forall_forall. intros c Hc. apply repeat_spec in Hc. subst c.
      reflexivity.
    - apply dec_digits_are_digits. }
  destruct (repeat (digit_char 0) (w - List.length (str_of_N n))
            ++ str_of_N n) as [| c r] eqn:E.
  - apply app_eq_nil in E. destruct E as [_ E].
    exfalso. revert E. apply dec_digits_nonempty.
  - exists c, r. split; [reflexivity |].
    inversion D; assumption.
Qed.

Lemma isoformat_trimmed :
  forall d, isoformat d <> [] /\ outer_whitespace (isoformat d) = false.
Proof.
  intros d. unfold isoformat.
  destruct (zero_padded_head 4 (year d)) as [c [r [E Hc]]]. rewrite E.
  cbn [app]. split; [discriminate |].
  cbn [outer_whitespace].
  rewrite (is_digit_not_space c Hc). cbn [orb].
  match goal with
  | |- isspace (last (r ++ ?rest) c) = false =>
      assert (L : exists pre, r ++ rest = pre ++ [0x30%N])
  end.
  { destruct (microsecond d =? 0)%N.
    - eexists (r ++ lit "-" ++ zero_padded 2 (month d) ++ lit "-"
               ++ zero_padded 2 (day d) ++ lit "T"
               ++ zero_padded 2 (hour d) ++ lit ":"
               ++ zero_padded 2 (minute d) ++ lit ":"
               ++ zero_padded 2 (second d) ++ lit "+00:0").
      repeat rewrite <- app_assoc. reflexivity.
    - eexists (r ++ lit "-" ++ zero_padded 2 (month d) ++ lit "-"
               ++ zero_padded 2 (day d) ++ lit "T"
               ++ zero_padded 2 (hour d) ++ lit ":"
               ++ zero_padded 2 (minute d) ++ lit ":"
               ++ zero_padded 2 (second d)
               ++ (lit "." ++ zero_padded 6 (microsecond d)) ++ lit "+00:0").
      repeat rewrite <- app_assoc. reflexivity. }
  destruct L as [pre ->]. rewrite last_last. reflexivity.
Qed.

(** ** Printing an integer and reading it back *)

Lemma decimal_value_digit_char :
  forall d, (d < 10)%N -> decimal_value (digit_char d) = Some d.
Proof.
  intros d H. unfold decimal_value.
  change decimal_blocks with (0x30%N :: tl decimal_blocks).
  cbn [find]. unfold digit_char.
  destruct (N.leb_spec 0x30 (0x30 + d)) as [_ | H1]; [| lia].
  destruct (N.ltb_spec (0x30 + d) (0x30 + 10)) as [_ | H2]; [| lia].
  cbn [andb]. f_equal. lia.
Qed.

Lemma decimal_value_small :
  forall c d, decimal_value c = Some d -> (d < 10)%N.
Proof.
  intros c d. unfold decimal_value.
  destruct (find (fun b => (b <=? c) && (c <? b + 10))%N decimal_blocks)
    as [b |] eqn:F; [| discriminate].
  intros H. injection H as <-.
  apply find_some in F. destruct F as [_ F].
  apply andb_true_iff in F. destruct F as [F1 F2].
  apply N.leb_le in F1. apply N.ltb_lt in F2. lia.
Qed.

Lemma digit_char_not_underscore :
  forall d, (d < 10)%N -> (digit_char d =? underscore)%N = false.
Proof.
  intros d H. apply N.eqb_neq. unfold digit_char, underscore. lia.
Qed.

Lemma scan_digits_digit_chars :
  forall ds b,
    Forall (fun d => d < 10)%N ds ->
    ds <> [] \/ b = true ->
    scan_digits b (map digit_char ds) = Some ds.
Proof.
  induction ds as [| d ds IH]; intros b Hs Hb.
  - destruct Hb as [Hb | ->]; [contradiction | reflexivity].
  - inversion Hs as [| ? ? Hd Hds]; subst.
    cbn [map scan_digits].
    rewrite (digit_char_not_underscore d Hd), (decimal_value_digit_char d Hd).
    rewrite (IH true Hds); [reflexivity | right; reflexivity].
Qed.

Lemma scan_digits_small :
  forall s b ds,
    scan_digits b s = Some ds -> Forall (fun d => d < 10)%N ds.
Proof.
  induction s as [| c r IH]; intros b ds; cbn [scan_digits].
  - destruct b; [| discriminate]. intros H. injection H as <-. constructor.
  - destruct (c =? underscore)%N.
    + destruct b; [apply IH | discriminate].
    + destruct (decimal_value c) as [d |] eqn:D; [| discriminate].
      destruct (scan_digits true r) as [ds' |] eqn:E; [| discriminate].
      cbn. intros H. injection H as <-.
      constructor; [apply (decimal_value_small c d D) | apply (IH true ds' E)].
Qed.

Lemma digits_value_snoc :
  forall ds d, digits_value (ds ++ [d]) = (10 * digits_value ds + d)%N.
Proof.
  intros ds d. unfold digits_value. rewrite fold_left_app. reflexivity.
Qed.

Lemma digits_value_bound :
  forall ds,
    Forall (fun d => d < 10)%N ds ->
    (digits_value ds < 10 ^ N.of_nat (List.length ds))%N.
Proof.
  induction ds as [| d ds IH] using rev_ind; intros H.
  - cbn. lia.
  - apply Forall_app in H. destruct H as [Hds Hd].
    inversion Hd as [| ? ? Hd' _]; subst.
    rewrite digits_value_snoc, length_app. cbn [List.length].
    replace (N.of_nat (List.length ds + 1))
      with (N.succ (N.of_nat (List.length ds))) by lia.
    rewrite N.pow_succ_r'. specialize (IH Hds). lia.
Qed.

(** The digits of a number, with enough fuel. *)
Lemma dec_digits_spec :
  forall fuel n,
    (n < 2 ^ N.of_nat fuel)%N -> (1 <= fuel)%nat ->
    exists ds,
      dec_digits fuel n = map digit_char ds
      /\ Forall (fun d => d < 10)%N ds
      /\ ds <> []
      /\ digits_value ds = n.
Proof.
  induction fuel as [| fuel IH]; intros n Hn Hf; [lia |].
  cbn [dec_digits].
  destruct (N.ltb_spec n 10) as [H | H].
  - exists [n].
    split; [reflexivity |].
    split; [constructor; [exact H | constructor] |].
    split; [discriminate |].
    unfold digits_value. cbn [fold_left]. lia.
  - rewrite Nat2N.inj_succ, N.pow_succ_r' in Hn.
    assert (Hq : (n / 10 < 2 ^ N.of_nat fuel)%N)
      by (apply N.Div0.div_lt_upper_bound; lia).
    assert (Hf' : (1 <= fuel)%nat).
    { destruct fuel; [cbn in Hn; lia | lia]. }
    destruct (IH (n / 10)%N Hq Hf') as [ds [E [Hs [Hne Hv]]]].
    exists (ds ++ [n mod 10])%N.
    split; [rewrite E, map_app; reflexivity |].
    split.
    { apply Forall_app. split; [exact Hs |].
      constructor; [apply N.mod_lt; discriminate | constructor]. }
    split.
    { intros C. apply app_eq_nil in C. destruct C as [_ C]. discriminate. }
    rewrite digits_value_snoc, Hv.
    pose proof (N.div_mod n 10). lia.
Qed.

Lemma str_of_N_spec :
  forall n,
    exists ds,
      str_of_N n = map digit_char ds
      /\ Forall (fun d => d < 10)%N ds
      /\ ds <> []
      /\ digits_value ds = n.
Proof.
  intros n. unfold str_of_N. apply dec_digits_spec; [| lia].
  rewrite Nat2N.inj_succ, N2Nat.id.
  destruct n as [| p]; [cbn; lia |].
  apply N.log2_spec. lia.
Qed.

Lemma int_of_unsigned :
  forall c r,
    strip_by int_isspace (c :: r) = c :: r ->
    (c =? minus_sign)%N = false -> (c =? plus_sign)%N = false ->
    int (c :: r) = option_map Z.of_N (unsigned_literal (c :: r)).
Proof.
  intros c r Hs Hm Hp. unfold int. rewrite Hs, Hm, Hp. reflexivity.
Qed.

Lemma digit_char_plain :
  forall d, (d < 10)%N ->
    int_isspace (digit_char d) = false
    /\ isspace (digit_char d) = false
    /\ (digit_char d =? minus_sign)%N = false
    /\ (digit_char d =? plus_sign)%N = false.
Proof.
  intros d H.
  split; [| split; [apply is_digit_not_space, is_digit_char; exact H |]].
  - unfold int_isspace, digit_char.
    destruct (N.ltb_spec (0x30 + d) 0x80) as [_ | C]; [| lia].
    apply orb_false_iff. split.
    + apply andb_false_iff. right. apply N.leb_gt. lia.
    + apply N.eqb_neq. lia.
  - unfold digit_char, minus_sign, plus_sign.
    split; apply N.eqb_neq; lia.
Qed.

Lemma last_cons_default :
  forall (l : list N) x d, last (x :: l) d = last l x.
Proof.
  induction l as [| y l IH]; intros x d; [reflexivity |].
  change (last (x :: y :: l) d) with (last (y :: l) d).
  rewrite (IH y d), (IH y x). reflexivity.
Qed.

Lemma last_map_digit_char :
  forall ds d,
    Forall (fun d => d < 10)%N (d :: ds) ->
    exists d', (d' < 10)%N
               /\ last (map digit_char ds) (digit_char d) = digit_char d'.
Proof.
  induction ds as [| e ds IH]; intros d H.
  - exists d. split; [inversion H; assumption | reflexivity].
  - inversion H as [| ? ? _ Hr]; subst.
    destruct (IH e Hr) as [d' [Hd' E]].
    exists d'. split; [exact Hd' |].
    cbn [map]. rewrite last_cons_default. exact E.
Qed.

(** Reading back what [str] printed gives the number, as long as it has
    no more digits than [int] accepts. *)
Lemma int_str_of_N :
  forall n,
    (n < 10 ^ N.of_nat int_max_str_digits)%N ->
    int (str_of_N n) = Some (Z.of_N n)
    /\ strip (str_of_N n) = str_of_N n
    /\ str_of_N n <> [].
Proof.
  intros n Hn.
  destruct (str_of_N_spec n) as [ds [E [Hs [Hne Hv]]]].
  assert (Hl : (List.length ds <= int_max_str_digits)%nat).
  { rewrite <- (length_map digit_char), <- E. unfold str_of_N.
    apply dec_digits_length; [exact Hn | unfold int_max_str_digits; lia]. }
  rewrite E. destruct ds as [| d ds]; [contradiction |].
  cbn [map].
  pose proof (Forall_inv Hs) as Hd. cbn beta in Hd.
  destruct (digit_char_plain d Hd) as [Hi [Hw [Hm Hp]]].
  destruct (last_map_digit_char ds d Hs) as [d' [Hd' El]].
  destruct (digit_char_plain d' Hd') as [Hi' [Hw' _]].
  split; [| split; [| discriminate]].
  - rewrite int_of_unsigned; try assumption.
    + unfold unsigned_literal.
      change (digit_char d :: map digit_char ds)
        with (map digit_char (d :: ds)).
      rewrite scan_digits_digit_chars; [| exact Hs | left; discriminate].
      destruct (Nat.ltb_spec int_max_str_digits (List.length (d :: ds)))
        as [C | _]; [lia |].
      cbn [option_map]. rewrite Hv. reflexivity.
    + apply strip_by_fixed; [exact Hi | rewrite El; exact Hi'].
  - apply strip_by_fixed; [exact Hw | rewrite El; exact Hw'].
Qed.

Lemma int_str_of_int :
  forall z,
    (Z.abs_N z < 10 ^ N.of_nat int_max_str_digits)%N ->
    int (str_of_int z) = Some z
    /\ strip (str_of_int z) = str_of_int z
    /\ str_of_int z <> [].
Proof.
  intros z Hz. destruct z as [| p | p]; cbn [str_of_int].
  - apply (int_str_of_N 0). exact Hz.
  - destruct (int_str_of_N (Npos p) Hz) as [Hi Hs]. split; assumption.
  - destruct (int_str_of_N (Npos p) Hz) as [Hi [Hs Hne]].
    destruct (str_of_N_spec (Npos p)) as [ds [E [Hds [Hn Hv]]]].
    destruct ds as [| d ds]; [contradiction |].
    destruct (last_map_digit_char ds d Hds) as [d' [Hd' El]].
    destruct (digit_char_plain d' Hd') as [Hi' [Hw' _]].
    assert (L : last (str_of_N (N.pos p)) minus_sign = digit_char d').
    { rewrite E. cbn [map]. rewrite last_cons_default. exact El. }
    assert (F : strip_by int_isspace (minus_sign :: str_of_N (N.pos p))
                = minus_sign :: str_of_N (N.pos p)).
    { apply strip_by_fixed; [reflexivity | rewrite L; exact Hi']. }
    split; [| split; [| discriminate]].
    + unfold int. rewrite F. cbn [N.eqb minus_sign Pos.eqb].
      unfold int in Hi.
      assert (U : unsigned_literal (str_of_N (N.pos p)) = Some (N.pos p)).
      { unfold unsigned_literal. rewrite E.
        rewrite scan_digits_digit_chars; [| exact Hds | left; discriminate].
        assert (Hl : (List.length (d :: ds) <= int_max_str_digits)%nat).
        { rewrite <- (length_map digit_char), <- E. unfold str_of_N.
          apply dec_digits_length; [exact Hz | unfold int_max_str_digits; lia]. }
        destruct (Nat.ltb_spec int_max_str_digits (List.length (d :: ds)))
          as [C | _]; [lia |].
        rewrite Hv. reflexivity. }
      rewrite U. reflexivity.
    + apply strip_by_fixed; [reflexivity | rewrite L; exact Hw'].
Qed.

Lemma unsigned_literal_bound :
  forall s n,
    unsigned_literal s = Some n ->
    (n < 10 ^ N.of_nat int_max_str_digits)%N.
Proof.
  intros s n. unfold unsigned_literal.
  destruct (scan_digits false s) as [ds |] eqn:E; [| discriminate].
  destruct (Nat.ltb_spec int_max_str_digits (List.length ds)) as [| L];
    [discriminate |].
  intros H. injection H as <-.
  apply scan_digits_small in E.
  apply N.lt_le_trans with (10 ^ N.of_nat (List.length ds))%N.
  - apply digits_value_bound. exact E.
  - apply N.pow_le_mono_r; lia.
Qed.

(** What [int] returns has no more digits than it accepts. *)
Lemma int_bound :
  forall s z,
    int s = Some z -> (Z.abs_N z < 10 ^ N.of_nat int_max_str_digits)%N.
Proof.
  intros s z. unfold int.
  destruct (strip_by int_isspace s) as [| c r]; [discriminate |].
  destruct (c =? minus_sign)%N;
    [| destruct (c =? plus_sign)%N];
    match goal with
    | |- option_map _ (unsigned_literal ?t) = _ -> _ =>
        destruct (unsigned_literal t) as [n |] eqn:U; [| discriminate]
    end;
    cbn [option_map]; intros H; injection H as <-;
    apply unsigned_literal_bound in U;
    rewrite ?Zabs2N.inj_opp, Zabs2N.id; exact U.
Qed.

Lemma int_some_not_blank :
  forall s z, int (strip s) = Some z -> blank s = false.
Proof.
  intros s z H. unfold blank.
  destruct (strip s); [discriminate | reflexivity].
Qed.

(** X4. The single-identifier tools work on the integer their argument
    parses to: the path of the request ends with that integer as [str]
    prints it, and calling the tool with the printed integer does in
    every respect what the call with the original argument does. *)
Theorem identifier_normalised :
  forall (op : IdOp) (env : Env) (alert_id : ustring) (n : Z),
    int (strip alert_id) = Some n ->
    requests (call_tool (id_call op alert_id)) env
    = [id_request env (id_path op) n]
    /\ int (strip (str_of_int n)) = Some n
    /\ call_tool (id_call op (str_of_int n)) env
       = call_tool (id_call op alert_id) env.
Proof.
  intros op env alert_id n H.
  pose proof (int_some_not_blank alert_id n H) as B.
  destruct (int_str_of_int n (int_bound (strip alert_id) n H))
    as [Hi [Hs Hne]].
  assert (H' : int (strip (str_of_int n)) = Some n)
    by (rewrite Hs; exact Hi).
  pose proof (int_some_not_blank (str_of_int n) n H') as B'.
  unfold requests. rewrite !call_tool_plan, !id_call_plan.
  unfold id_plan. rewrite B, H, B', H'.
  repeat split; reflexivity.
Qed.

Lemma identifier_normalised_witness :
  requests (call_tool (id_call CloseOne (lit " +0_07 ")))
    (example_env (ok_response success_body))
  = [id_request (example_env (ok_response success_body))
       (lit "/api/close_alert/") 7]
  /\ int (strip (str_of_int 7)) = Some 7%Z
  /\ call_tool (id_call CloseOne (str_of_int 7))
       (example_env (ok_response success_body))
     = call_tool (id_call CloseOne (lit " +0_07 "))
         (example_env (ok_response success_body)).
Proof.
  apply (identifier_normalised CloseOne
           (example_env (ok_response success_body)) (lit " +0_07 ") 7).
  vm_compute. reflexivity.
Defined.

(** ** The body of a create request *)

(** X9. The request of a create call carries the five text fields
    location, severity, message, source and timestamp, in this order; each
    value is non-empty and has no whitespace at its start or end, and the
    severity sent is the argument itself, one of the three levels. *)
Theorem create_request_fields_trimmed :
  forall env location severity message source timestamp req,
    In req (requests (create_alert location severity message source timestamp)
              env) ->
    map fst (text_fields req)
    = [lit "location"; lit "severity"; lit "message"; lit "source";
       lit "timestamp"]
    /\ (forall key value,
           In (key, value) (text_fields req) ->
           value <> [] /\ outer_whitespace value = false)
    /\ In (lit "severity", severity) (text_fields req)
    /\ In severity valid_levels.
Proof.
  intros env location severity message source timestamp req Hin.
  assert (Hne : requests (create_alert location severity message source
                            timestamp) env <> [])
    by (intros C; rewrite C in Hin; destruct Hin).
  destruct (create_alert_sends_when_valid env location severity message source
              timestamp Hne) as [B1 [B2 [B3 [B4 Hv]]]].
  unfold requests in Hin.
  rewrite (create_alert_valid_run env location severity message source
             timestamp B1 B2 B3 B4 Hv) in Hin.
  cbn [snd] in Hin. destruct Hin as [<- | []].
  assert (Hs : strip severity = severity).
  { apply validate_severity_iff, valid_levels_exact in Hv.
    destruct Hv as [-> | [-> | ->]]; vm_compute; reflexivity. }
  assert (Ht : timestamp_of env timestamp <> []
               /\ outer_whitespace (timestamp_of env timestamp) = false).
  { unfold timestamp_of. destruct (blank timestamp) eqn:B5.
    - apply isoformat_trimmed.
    - apply strip_trimmed. exact B5. }
  unfold text_fields, create_request.
  cbn [req_json flat_map snd fst app map].
  split; [reflexivity |].
  split.
  - intros key value [E | [E | [E | [E | [E | []]]]]]; injection E as _ <-.
    + apply strip_trimmed. exact B1.
    + apply strip_trimmed. exact B2.
    + apply strip_trimmed. exact B3.
    + apply strip_trimmed. exact B4.
    + exact Ht.
  - split; [right; left; rewrite Hs; reflexivity |].
    apply validate_severity_iff. exact Hv.
Qed.

Lemma create_request_fields_trimmed_witness :
  map fst
    (text_fields
       (create_request (example_env (ok_response success_body))
          (lit "dc1") (lit "MAJOR") (lit "disk full") (lit "nagios")
          (lit "2024-01-02T03:04:05.000007+00:00")))
  = [lit "location"; lit "severity"; lit "message"; lit "source";
     lit "timestamp"]
  /\ (forall key value,
         In (key, value)
           (text_fields
              (create_request (example_env (ok_response success_body))
                 (lit "dc1") (lit "MAJOR") (lit "disk full") (lit "nagios")
                 (lit "2024-01-02T03:04:05.000007+00:00"))) ->
         value <> [] /\ outer_whitespace value = false)
  /\ In (lit "severity", lit "MAJOR")
       (text_fields
          (create_request (example_env (ok_response success_body))
             (lit "dc1") (lit "MAJOR") (lit "disk full") (lit "nagios")
             (lit "2024-01-02T03:04:05.000007+00:00")))
  /\ In (lit "MAJOR") valid_levels.
Proof.
  apply (create_request_fields_trimmed
           (example_env (ok_response success_body))
           (lit "  dc1 ") (lit "MAJOR") (lit " disk full") (lit "nagios ")
           (lit "   ")).
  vm_compute. left. reflexivity.
Defined.

(** X10. Whitespace around the location, the message, the source and
    the timestamp of a create call, and around the identifier of a
    single-identifier call, does not change the request that is sent. *)
Theorem surrounding_whitespace_ignored :
  forall (op : IdOp) (env : Env)
         (location severity message source timestamp alert_id : ustring),
    requests (create_alert (strip location) severity (strip message)
                (strip source) (strip timestamp)) env
    = requests (create_alert location severity message source timestamp) env
    /\ requests (call_tool (id_call op (strip alert_id))) env
       = requests (call_tool (id_call op alert_id)) env.
Proof.
  intros op env location severity message source timestamp alert_id.
  unfold requests. split.
  - rewrite !create_alert_plan. cbn [plan].
    unfold timestamp_of. rewrite !blank_strip, !strip_idempotent.
    destruct (blank location); [reflexivity |].
    destruct (blank severity); [reflexivity |].
    destruct (blank message); [reflexivity |].
    destruct (blank source); [reflexivity |].
    destruct (negb (validate_severity severity)); reflexivity.
  - rewrite !call_tool_plan, !id_call_plan. unfold id_plan.
    rewrite blank_strip, strip_idempotent.
    destruct (blank alert_id); [reflexivity |].
    destruct (int (strip alert_id)); reflexivity.
Qed.

(** ** Writing a list of identifiers for a bulk tool *)

Lemma split_app_separator :
  forall sep x rest,
    forallb (fun c => negb (c =? sep)%N) x = true ->
    split sep (x ++ sep :: rest) = x :: split sep rest.
Proof.
  intros sep. induction x as [| c x IH]; intros rest H.
  - cbn. rewrite N.eqb_refl. reflexivity.
  - cbn in H. apply andb_true_iff in H. destruct H as [Hc Hx].
    apply negb_true_iff in Hc.
    cbn [app split]. rewrite Hc, (IH rest Hx). reflexivity.
Qed.

Lemma split_join :
  forall sep l,
    l <> [] ->
    Forall (fun t => forallb (fun c => negb (c =? sep)%N) t = true) l ->
    split sep (join [sep] l) = l.
Proof.
  intros sep. induction l as [| x l IH]; intros Hne H; [contradiction |].
  inversion H as [| ? ? Hx Hl]; subst.
  destruct l as [| y l].
  - cbn [join]. apply split_without_separator. exact Hx.
  - change (join [sep] (x :: y :: l))
      with (x ++ sep :: join [sep] (y :: l)).
    rewrite (split_app_separator sep x _ Hx).
    rewrite IH; [reflexivity | discriminate | exact Hl].
Qed.

Lemma str_of_N_no_comma :
  forall n, forallb (fun c => negb (c =? comma)%N) (str_of_N n) = true.
Proof.
  intros n. destruct (str_of_N_spec n) as [ds [-> [Hs _]]].
  apply forallb_forall. intros c Hc.
  apply in_map_iff in Hc. destruct Hc as [d [<- Hd]].
  rewrite Forall_forall in Hs. specialize (Hs d Hd).
  apply negb_true_iff, N.eqb_neq. unfold digit_char, comma. lia.
Qed.

Lemma str_of_int_no_comma :
  forall z, forallb (fun c => negb (c =? comma)%N) (str_of_int z) = true.
Proof.
  intros [| p | p]; cbn [str_of_int forallb]; rewrite ?str_of_N_no_comma;
    reflexivity.
Qed.

Lemma tokens_of_printed :
  forall ids,
    Forall (fun z => Z.abs_N z < 10 ^ N.of_nat int_max_str_digits)%N ids ->
    filter truthy (map strip (map str_of_int ids)) = map str_of_int ids
    /\ all_ints (map str_of_int ids) = Some ids.
Proof.
  induction ids as [| z ids IH]; intros H; [split; reflexivity |].
  inversion H as [| ? ? Hz Hr]; subst.
  destruct (IH Hr) as [Hf Ha].
  destruct (int_str_of_int z Hz) as [Hi [Hs Hne]].
  cbn [map filter all_ints]. rewrite Hs, Hi, Ha, Hf.
  destruct (str_of_int z); [contradiction | split; reflexivity].
Qed.

(** X11. Every non-empty list of integers can be given to a bulk tool:
    the integers printed by [str] and joined with commas are accepted, and
    the request carries that list, in that order. *)
Theorem bulk_accepts_printed_identifiers :
  forall (op : BulkOp) (env : Env) (ids : list Z),
    ids <> [] ->
    Forall (fun z => Z.abs_N z < 10 ^ N.of_nat int_max_str_digits)%N ids ->
    spec_ids (join [comma] (map str_of_int ids)) = Some ids
    /\ requests (bulk_tool op (join [comma] (map str_of_int ids))) env
       = [bulk_request env op ids].
Proof.
  intros op env ids Hne Hb.
  assert (S : spec_ids (join [comma] (map str_of_int ids)) = Some ids).
  { unfold spec_ids, spec_tokens.
    rewrite split_join.
    - destruct (tokens_of_printed ids Hb) as [-> ->].
      destruct ids; [contradiction | reflexivity].
    - destruct ids; [contradiction | discriminate].
    - apply Forall_forall. intros t Ht.
      apply in_map_iff in Ht. destruct Ht as [z [<- _]].
      apply str_of_int_no_comma. }
  split; [exact S |].
  unfold requests. rewrite bulk_tool_run.
  pose proof (bulk_plan_spec env op (join [comma] (map str_of_int ids))) as P.
  rewrite S in P. rewrite P. reflexivity.
Qed.

Lemma bulk_accepts_printed_identifiers_witness :
  spec_ids (join [comma] (map str_of_int [3; -5; 0; 12]%Z))
  = Some [3; -5; 0; 12]%Z
  /\ requests
       (bulk_tool CloseBulk (join [comma] (map str_of_int [3; -5; 0; 12]%Z)))
       (example_env (ok_response success_body))
     = [bulk_request (example_env (ok_response success_body)) CloseBulk
          [3; -5; 0; 12]%Z].
Proof.
  apply (bulk_accepts_printed_identifiers CloseBulk
           (example_env (ok_response success_body)) [3; -5; 0; 12]%Z).
  - discriminate.
  - repeat constructor;
      (apply N.lt_le_trans with (10 ^ 2)%N;
       [vm_compute; reflexivity
       | apply N.pow_le_mono_r; [discriminate | vm_compute; discriminate]]).
Defined.

(** ** What a success string is made of *)

Lemma failure_not_success :
  forall s, is_failure_string s = true -> is_success_string s = false.
Proof.
  intros [| a s]; [discriminate |].
  unfold is_failure_string, is_success_string, cross, check.
  cbn [starts_with]. rewrite !andb_true_r.
  intros H. apply N.eqb_eq in H. subst a. reflexivity.
Qed.

Lemma plan_success_of_arguments :
  forall c env env' request success hint request' success' hint',
    c <> CloseExpiredAlerts ->
    utcnow env = utcnow env' ->
    plan c env = Send request success hint ->
    plan c env' = Send request' success' hint' ->
    forall items items', success items = success' items'.
Proof.
  intros c env env' request success hint request' success' hint' Hc Hu.
  destruct c as [location severity message source timestamp | alert_id
                | alert_ids | alert_id | alert_id | alert_ids |];
    cbn [plan]; unfold id_plan, bulk_plan, timestamp_of; try rewrite Hu.
  - destruct (blank location); [discriminate |].
    destruct (blank severity); [discriminate |].
    destruct (blank message); [discriminate |].
    destruct (blank source); [discriminate |].
    destruct (negb (validate_severity severity)); [discriminate |].
    intros H H'. injection H as _ <- _. injection H' as _ <- _. reflexivity.
  - destruct (blank alert_id); [discriminate |].
    destruct (int (strip alert_id)); [| discriminate].
    intros H H'. injection H as _ <- _. injection H' as _ <- _. reflexivity.
  - destruct (blank alert_ids); [discriminate |].
    destruct (ints_of_tokens (split comma alert_ids)) as [[| id ids] |];
      try discriminate.
    intros H H'. injection H as _ <- _. injection H' as _ <- _. reflexivity.
  - destruct (blank alert_id); [discriminate |].
    destruct (int (strip alert_id)); [| discriminate].
    intros H H'. injection H as _ <- _. injection H' as _ <- _. reflexivity.
  - destruct (blank alert_id); [discriminate |].
    destruct (int (strip alert_id)); [| discriminate].
    intros H H'. injection H as _ <- _. injection H' as _ <- _. reflexivity.
  - destruct (blank alert_ids); [discriminate |].
    destruct (ints_of_tokens (split comma alert_ids)) as [[| id ids] |];
      try discriminate.
    intros H H'. injection H as _ <- _. injection H' as _ <- _. reflexivity.
  - contradiction.
Qed.

(** X12. Except for [close_expired_alerts], the success string of a
    tool is made of its arguments (and, for a generated timestamp, of the
    clock) only: two calls with the same arguments and the same clock
    reading that both succeed return the same string, whatever else the
    two backends put in their responses. *)
Theorem success_string_of_arguments :
  forall (c : ToolCall) (env env' : Env) (s s' : ustring),
    c <> CloseExpiredAlerts ->
    utcnow env = utcnow env' ->
    returned (call_tool c) env = Ok s -> is_success_string s = true ->
    returned (call_tool c) env' = Ok s' -> is_success_string s' = true ->
    returned (call_tool c) env = returned (call_tool c) env'.
Proof.
  intros c env env' s s' Hc Hu. unfold returned. rewrite !call_tool_plan.
  destruct (plan c env) as [error | request success hint] eqn:P;
    destruct (plan c env') as [error' | request' success' hint'] eqn:P';
    cbn [run_plan fst]; intros H Hok H' Hok';
    injection H as <-; injection H' as <-.
  - pose proof (plan_of_valid_call c env) as V. rewrite P in V.
    destruct (valid_call c).
    + destruct V as [? [? [? V]]]. discriminate.
    + destruct V as [e [V Hf]]. injection V as <-.
      rewrite (failure_not_success error Hf) in Hok. discriminate.
  - pose proof (plan_of_valid_call c env) as V. rewrite P in V.
    pose proof (plan_of_valid_call c env') as V'. rewrite P' in V'.
    destruct (valid_call c).
    + destruct V as [? [? [? V]]]. discriminate.
    + destruct V' as [? [V' _]]. discriminate.
  - pose proof (plan_of_valid_call c env) as V. rewrite P in V.
    pose proof (plan_of_valid_call c env') as V'. rewrite P' in V'.
    destruct (valid_call c).
    + destruct V' as [? [? [? V']]]. discriminate.
    + destruct V as [? [V _]]. discriminate.
  - destruct (translate_success_string _ _ _ Hok) as [items ->].
    destruct (translate_success_string _ _ _ Hok') as [items' ->].
    f_equal.
    apply (plan_success_of_arguments c env env' request success hint request'
             success' hint' Hc Hu P P').
Qed.

Lemma success_string_of_arguments_witness :
  returned (call_tool (AcknowledgeAlert (lit "42")))
    (example_env (ok_response success_body))
  = returned (call_tool (AcknowledgeAlert (lit "42")))
      (example_env
         (ok_response [(lit "status", PyStr (lit "success"));
                       (lit "message", PyStr (lit "done"))])).
Proof.
  apply (success_string_of_arguments (AcknowledgeAlert (lit "42"))
           (example_env (ok_response success_body))
           (example_env
              (ok_response [(lit "status", PyStr (lit "success"));
                            (lit "message", PyStr (lit "done"))]))
           (check ++ lit " Alert #42 acknowledged successfully")
           (check ++ lit " Alert #42 acknowledged successfully"));
    try (vm_compute; reflexivity).
  discriminate.
Defined.
